(** * Outfit recommendation engine (src/lib/recommendation-engine.ts)

    A shallow embedding of the scoring matrices, the five dimension
    scorers, the item selector and [generateOutfitRecommendations].
    Scores are JavaScript numbers; they are modelled as exact rationals
    ([Q]).  Prices are integer currency units ([Z]).  Catalog objects carry
    their position in the static catalog array, which stands for their
    JavaScript object identity (the code compares products with
    [Array.prototype.includes], i.e. by reference). *)

From Stdlib Require Import QArith Qround Qabs Qminmax ZArith List String Ascii Bool Lia Lqa Permutation Sorted.
Import ListNotations.
Open Scope Q_scope.
Open Scope string_scope.

(** ** Enumerations of src/types/product.ts *)

Inductive ColorFamily : Type :=
  black | white | gray | navy | brown | beige | cream | green | blue | red
| pink | purple | orange | multi.

Inductive StyleType : Type :=
  streetwear | casual | athletic | formal | luxury | minimalist.

Definition ColorFamily_all : list ColorFamily :=
  [black; white; gray; navy; brown; beige; cream; green; blue; red; pink;
   purple; orange; multi].

Definition StyleType_all : list StyleType :=
  [streetwear; casual; athletic; formal; luxury; minimalist].

Definition ColorFamily_eqb (a b : ColorFamily) : bool :=
  match a, b with
  | black, black | white, white | gray, gray | navy, navy | brown, brown
  | beige, beige | cream, cream | green, green | blue, blue | red, red
  | pink, pink | purple, purple | orange, orange | multi, multi => true
  | _, _ => false
  end.

Definition StyleType_eqb (a b : StyleType) : bool :=
  match a, b with
  | streetwear, streetwear | casual, casual | athletic, athletic
  | formal, formal | luxury, luxury | minimalist, minimalist => true
  | _, _ => false
  end.

(** A [Record<K, Record<K, number>>] object literal: rows in source order. *)
Fixpoint assoc {K V : Type} (eqb : K -> K -> bool) (k : K) (l : list (K * V))
  : option V :=
  match l with
  | [] => None
  | (k', v) :: l' => if eqb k k' then Some v else assoc eqb k l'
  end.

(** [M[a]?.[b]] *)
Definition lookup2 {K : Type} (eqb : K -> K -> bool)
  (M : list (K * list (K * Q))) (a b : K) : option Q :=
  match assoc eqb a M with
  | Some row => assoc eqb b row
  | None => None
  end.

(** ** Precomputed scoring matrices *)

Definition COLOR_HARMONY : list (ColorFamily * list (ColorFamily * Q)) := [
  (black, [(black, (7 # 10)); (white, (10 # 10)); (gray, (95 # 100)); (navy, (9 # 10)); (brown, (8 # 10)); (beige, (9 # 10)); (cream, (95 # 100)); (green, (8 # 10)); (blue, (85 # 100)); (red, (75 # 100)); (pink, (7 # 10)); (purple, (7 # 10)); (orange, (7 # 10)); (multi, (6 # 10))]);
  (white, [(black, (10 # 10)); (white, (6 # 10)); (gray, (9 # 10)); (navy, (95 # 100)); (brown, (85 # 100)); (beige, (9 # 10)); (cream, (85 # 100)); (green, (85 # 100)); (blue, (9 # 10)); (red, (85 # 100)); (pink, (8 # 10)); (purple, (8 # 10)); (orange, (85 # 100)); (multi, (7 # 10))]);
  (gray, [(black, (95 # 100)); (white, (9 # 10)); (gray, (7 # 10)); (navy, (9 # 10)); (brown, (75 # 100)); (beige, (85 # 100)); (cream, (9 # 10)); (green, (8 # 10)); (blue, (85 # 100)); (red, (7 # 10)); (pink, (75 # 100)); (purple, (75 # 100)); (orange, (7 # 10)); (multi, (6 # 10))]);
  (navy, [(black, (9 # 10)); (white, (95 # 100)); (gray, (9 # 10)); (navy, (7 # 10)); (brown, (9 # 10)); (beige, (95 # 100)); (cream, (95 # 100)); (green, (75 # 100)); (blue, (8 # 10)); (red, (7 # 10)); (pink, (7 # 10)); (purple, (7 # 10)); (orange, (65 # 100)); (multi, (6 # 10))]);
  (brown, [(black, (8 # 10)); (white, (85 # 100)); (gray, (75 # 100)); (navy, (9 # 10)); (brown, (7 # 10)); (beige, (95 # 100)); (cream, (95 # 100)); (green, (85 # 100)); (blue, (75 # 100)); (red, (65 # 100)); (pink, (6 # 10)); (purple, (6 # 10)); (orange, (8 # 10)); (multi, (6 # 10))]);
  (beige, [(black, (9 # 10)); (white, (9 # 10)); (gray, (85 # 100)); (navy, (95 # 100)); (brown, (95 # 100)); (beige, (7 # 10)); (cream, (8 # 10)); (green, (85 # 100)); (blue, (85 # 100)); (red, (7 # 10)); (pink, (75 # 100)); (purple, (7 # 10)); (orange, (8 # 10)); (multi, (65 # 100))]);
  (cream, [(black, (95 # 100)); (white, (85 # 100)); (gray, (9 # 10)); (navy, (95 # 100)); (brown, (95 # 100)); (beige, (8 # 10)); (cream, (65 # 100)); (green, (85 # 100)); (blue, (85 # 100)); (red, (75 # 100)); (pink, (8 # 10)); (purple, (75 # 100)); (orange, (8 # 10)); (multi, (65 # 100))]);
  (green, [(black, (8 # 10)); (white, (85 # 100)); (gray, (8 # 10)); (navy, (75 # 100)); (brown, (85 # 100)); (beige, (85 # 100)); (cream, (85 # 100)); (green, (6 # 10)); (blue, (7 # 10)); (red, (5 # 10)); (pink, (55 # 100)); (purple, (6 # 10)); (orange, (6 # 10)); (multi, (55 # 100))]);
  (blue, [(black, (85 # 100)); (white, (9 # 10)); (gray, (85 # 100)); (navy, (8 # 10)); (brown, (75 # 100)); (beige, (85 # 100)); (cream, (85 # 100)); (green, (7 # 10)); (blue, (6 # 10)); (red, (6 # 10)); (pink, (65 # 100)); (purple, (7 # 10)); (orange, (55 # 100)); (multi, (55 # 100))]);
  (red, [(black, (75 # 100)); (white, (85 # 100)); (gray, (7 # 10)); (navy, (7 # 10)); (brown, (65 # 100)); (beige, (7 # 10)); (cream, (75 # 100)); (green, (5 # 10)); (blue, (6 # 10)); (red, (5 # 10)); (pink, (65 # 100)); (purple, (6 # 10)); (orange, (5 # 10)); (multi, (5 # 10))]);
  (pink, [(black, (7 # 10)); (white, (8 # 10)); (gray, (75 # 100)); (navy, (7 # 10)); (brown, (6 # 10)); (beige, (75 # 100)); (cream, (8 # 10)); (green, (55 # 100)); (blue, (65 # 100)); (red, (65 # 100)); (pink, (5 # 10)); (purple, (7 # 10)); (orange, (5 # 10)); (multi, (5 # 10))]);
  (purple, [(black, (7 # 10)); (white, (8 # 10)); (gray, (75 # 100)); (navy, (7 # 10)); (brown, (6 # 10)); (beige, (7 # 10)); (cream, (75 # 100)); (green, (6 # 10)); (blue, (7 # 10)); (red, (6 # 10)); (pink, (7 # 10)); (purple, (5 # 10)); (orange, (5 # 10)); (multi, (5 # 10))]);
  (orange, [(black, (7 # 10)); (white, (85 # 100)); (gray, (7 # 10)); (navy, (65 # 100)); (brown, (8 # 10)); (beige, (8 # 10)); (cream, (8 # 10)); (green, (6 # 10)); (blue, (55 # 100)); (red, (5 # 10)); (pink, (5 # 10)); (purple, (5 # 10)); (orange, (5 # 10)); (multi, (55 # 100))]);
  (multi, [(black, (6 # 10)); (white, (7 # 10)); (gray, (6 # 10)); (navy, (6 # 10)); (brown, (6 # 10)); (beige, (65 # 100)); (cream, (65 # 100)); (green, (55 # 100)); (blue, (55 # 100)); (red, (5 # 10)); (pink, (5 # 10)); (purple, (5 # 10)); (orange, (55 # 100)); (multi, (4 # 10))])
].

Definition STYLE_COMPATIBILITY : list (StyleType * list (StyleType * Q)) := [
  (streetwear, [(streetwear, (10 # 10)); (casual, (85 # 100)); (athletic, (8 # 10)); (formal, (3 # 10)); (luxury, (7 # 10)); (minimalist, (75 # 100))]);
  (casual, [(streetwear, (85 # 100)); (casual, (10 # 10)); (athletic, (75 # 100)); (formal, (5 # 10)); (luxury, (7 # 10)); (minimalist, (9 # 10))]);
  (athletic, [(streetwear, (8 # 10)); (casual, (75 # 100)); (athletic, (10 # 10)); (formal, (2 # 10)); (luxury, (5 # 10)); (minimalist, (7 # 10))]);
  (formal, [(streetwear, (3 # 10)); (casual, (5 # 10)); (athletic, (2 # 10)); (formal, (10 # 10)); (luxury, (85 # 100)); (minimalist, (8 # 10))]);
  (luxury, [(streetwear, (7 # 10)); (casual, (7 # 10)); (athletic, (5 # 10)); (formal, (85 # 100)); (luxury, (10 # 10)); (minimalist, (85 # 100))]);
  (minimalist, [(streetwear, (75 # 100)); (casual, (9 # 10)); (athletic, (7 # 10)); (formal, (8 # 10)); (luxury, (85 # 100)); (minimalist, (10 # 10))])
].

(** [COLOR_HARMONY[c1]?.[c2] ?? 0.5] *)
Definition color_score (c1 c2 : ColorFamily) : Q :=
  match lookup2 ColorFamily_eqb COLOR_HARMONY c1 c2 with
  | Some v => v
  | None => 1 # 2
  end.

(** [STYLE_COMPATIBILITY[s1]?.[s2] ?? 0.5] *)
Definition style_score (s1 s2 : StyleType) : Q :=
  match lookup2 StyleType_eqb STYLE_COMPATIBILITY s1 s2 with
  | Some v => v
  | None => 1 # 2
  end.

Definition BRAND_TIERS : list (string * Z) := [
  ("jacquemus", 5%Z); ("omega", 5%Z); ("swatch x omega", 5%Z); ("amiri", 5%Z);
  ("balmain", 5%Z); ("gucci", 5%Z);
  ("fear of god", 4%Z); ("kenzo", 4%Z); ("polo ralph lauren", 4%Z);
  ("yeezy", 4%Z); ("ami paris", 4%Z); ("karl lagerfeld", 4%Z);
  ("all saints", 4%Z);
  ("nike", 3%Z); ("adidas", 3%Z); ("new balance", 3%Z); ("on", 3%Z);
  ("jordan", 3%Z); ("air jordan", 3%Z); ("supreme", 3%Z);
  ("dickies", 2%Z); ("casio", 2%Z); ("stanley", 2%Z); ("hashway", 2%Z);
  ("myugen", 2%Z); ("blacklist co", 2%Z); ("young grandpa", 2%Z);
  ("forfksake", 2%Z); ("denim co", 2%Z); ("basics", 2%Z);
  ("streetwear", 2%Z);
  ("nofomo", 1%Z); ("anti matter", 1%Z); ("saucy club", 1%Z);
  ("bearcare", 1%Z)].

(** [String.prototype.toLowerCase] on ASCII text. *)
Definition lower_ascii (c : ascii) : ascii :=
  let n := nat_of_ascii c in
  if (Nat.leb 65 n && Nat.leb n 90)%bool then ascii_of_nat (n + 32) else c.

Fixpoint toLowerCase (s : string) : string :=
  match s with
  | EmptyString => EmptyString
  | String c s' => String (lower_ascii c) (toLowerCase s')
  end.

(** ** Products (src/types/product.ts) *)

Record Product : Type := mkProduct {
  sku_id : string;
  title : string;
  brand_name : string;
  category : string;
  lowest_price : Z;
  color_family : option ColorFamily;   (* [item.color_family || 'black'] *)
  style : option StyleType;            (* [item.style || 'casual'] *)
  season : string;
  tags : list string
}.

(** [BRAND_TIERS[brand_name.toLowerCase()] || 2] *)
Definition brand_tier (p : Product) : Z :=
  match assoc String.eqb (toLowerCase (brand_name p)) BRAND_TIERS with
  | Some t => if Z.eqb t 0 then 2%Z else t
  | None => 2%Z
  end.

Definition color_of (p : Product) : ColorFamily :=
  match color_family p with Some c => c | None => black end.

Definition style_of (p : Product) : StyleType :=
  match style p with Some s => s | None => casual end.

(** ** Scoring functions *)

Definition Qsum (l : list Q) : Q := fold_left Qplus l 0.

(** The double loop [for i; for j > i] accumulating [totalScore] and
    [comparisons]. *)
Fixpoint pairwise (f : Product -> Product -> Q) (items : list Product)
  : Q * nat :=
  match items with
  | [] => (0, 0%nat)
  | x :: rest =>
      let '(t, c) := pairwise f rest in
      (Qsum (map (f x) rest) + t, (List.length rest + c)%nat)
  end.

Definition pairwise_mean (f : Product -> Product -> Q) (items : list Product) : Q :=
  let '(totalScore, comparisons) := pairwise f items in
  if Nat.ltb 0 comparisons then totalScore / inject_Z (Z.of_nat comparisons)
  else 1 # 2.

Definition calculateColorHarmony (items : list Product) : Q :=
  pairwise_mean (fun a b => color_score (color_of a) (color_of b)) items.

Definition calculateStyleMatch (items : list Product) : Q :=
  pairwise_mean (fun a b => style_score (style_of a) (style_of b)) items.

Definition len_Q {A} (l : list A) : Q := inject_Z (Z.of_nat (List.length l)).

Definition calculateBrandCohesion (items : list Product) : Q :=
  let tiers := map (fun i => inject_Z (brand_tier i)) items in
  let avgTier := Qsum tiers / len_Q tiers in
  let variance :=
    Qsum (map (fun t => (t - avgTier) * (t - avgTier)) tiers) / len_Q tiers in
  Qmax 0 (1 - variance / 4).

Definition calculatePriceBalance (items : list Product) : Q :=
  let prices := map inject_Z
                  (filter (fun p => Z.ltb 0 p) (map lowest_price items)) in
  match prices with
  | [] => 1 # 2
  | _ =>
    let avgPrice := Qsum prices / len_Q prices in
    let variance :=
      Qsum (map (fun p => ((p - avgPrice) / avgPrice) * ((p - avgPrice) / avgPrice))
                prices) / len_Q prices in
    Qmax 0 (1 - variance)
  end.

(** [targetSeason] is [undefined] ([None]) or a string; [!targetSeason] also
    holds for the empty string. *)
Definition calculateSeasonFit (items : list Product) (targetSeason : option string) : Q :=
  match targetSeason with
  | None => 1
  | Some t =>
    if (String.eqb t "" || String.eqb t "all")%bool then 1
    else
      let seasonMatches :=
        List.length (filter (fun item => (String.eqb (season item) "all"
                                     || String.eqb (season item) t)%bool) items) in
      inject_Z (Z.of_nat seasonMatches) / len_Q items
  end.

(** ** Catalog objects and the random source *)

(** A catalog object: its index in the static [products] array (its
    reference identity) and its fields. *)
Record Obj : Type := mkObj { ref : nat; val : Product }.

(** [arr.includes(x)] on arrays of catalog objects compares references. *)
Definition includes (l : list Obj) (x : Obj) : bool :=
  existsb (fun o => Nat.eqb (ref o) (ref x)) l.

(** [Math.random()] is a stream of draws [rnd 0, rnd 1, ...]; the state of
    a computation is the index of the next draw. *)
Definition RandM (A : Type) : Type := nat -> A * nat.

Definition ret {A} (a : A) : RandM A := fun n => (a, n).
Definition bind {A B} (m : RandM A) (k : A -> RandM B) : RandM B :=
  fun n => let '(a, n') := m n in k a n'.

Notation "x <- m ;; k" := (bind m (fun x => k))
  (at level 61, m at next level, right associativity).

Section Engine.

(** The draws returned by successive calls of [Math.random()]. *)
Variable rnd : nat -> Q.

Definition random : RandM Q := fun n => (rnd n, S n).

(** Stable sort by a key, descending: [arr.sort((a, b) => key b - key a)]. *)
Fixpoint insert_desc {A} (key : A -> Q) (x : A) (l : list A) : list A :=
  match l with
  | [] => [x]
  | y :: l' => if Qle_bool (key y) (key x) then x :: l else y :: insert_desc key x l'
  end.

Fixpoint sort_desc {A} (key : A -> Q) (l : list A) : list A :=
  match l with
  | [] => []
  | x :: l' => insert_desc key x (sort_desc key l')
  end.

(** [arr[i]] for an integer index; [undefined] ([None]) out of range. *)
Definition js_index {A} (l : list A) (i : Z) : option A :=
  if Z.ltb i 0 then None else nth_error l (Z.to_nat i).

Definition avg_tier (existingItems : list Obj) : Q :=
  Qsum (map (fun e => inject_Z (brand_tier (val e))) existingItems)
  / len_Q existingItems.

(** The per-candidate score of [selectBestItem]. *)
Definition candidate_score (existingItems : list Obj)
  (preferredStyle : option StyleType) (item : Obj) : Q :=
  let colorPart :=
    match existingItems with
    | [] => 4 # 10
    | _ => (Qsum (map (fun e => color_score (color_of (val item)) (color_of (val e)))
                      existingItems) / len_Q existingItems) * (4 # 10)
    end in
  let stylePart :=
    match existingItems, preferredStyle with
    | [], None => 35 # 100
    | [], Some ps => style_score (style_of (val item)) ps * (35 # 100)
    | _, _ => (Qsum (map (fun e => style_score (style_of (val item)) (style_of (val e)))
                         existingItems) / len_Q existingItems) * (35 # 100)
    end in
  let brandPart :=
    match existingItems with
    | [] => 15 # 100
    | _ =>
      let tierDiff := Qabs (avg_tier existingItems - inject_Z (brand_tier (val item))) in
      Qmax 0 (1 - tierDiff / 3) * (15 # 100)
    end in
  let bonus :=
    if existsb (String.eqb "bestseller") (tags (val item)) then 1 # 10 else 0 in
  colorPart + stylePart + brandPart + bonus.

Definition selectBestItem (candidates existingItems : list Obj)
  (preferredStyle : option StyleType) : RandM (option Obj) :=
  match candidates with
  | [] => ret None
  | _ =>
    let scoredItems :=
      map (fun item => (item, candidate_score existingItems preferredStyle item))
          candidates in
    let sorted := sort_desc snd scoredItems in
    let topItems := firstn (Nat.min 3 (List.length sorted)) sorted in
    u <- random ;;
    let randomIndex := Qfloor (u * len_Q topItems) in
    ret (option_map fst (js_index topItems randomIndex))
  end.

(** ** Outfits, requests and responses (src/types/product.ts) *)

Record ScoreBreakdown : Type := mkBreakdown {
  color_harmony : Q;
  style_match : Q;
  brand_cohesion : Q;
  price_balance : Q;
  season_fit : Q
}.

Record Outfit : Type := mkOutfit {
  outfit_id : Q;       (* the [Math.random()] draw of [generateOutfitId] *)
  top : Obj;
  bottom : Obj;
  footwear : Obj;
  accessories : list Obj;
  match_score : Q;
  score_breakdown : ScoreBreakdown;
  reasoning : string;
  total_price : Z
}.

Record RecommendationRequest : Type := mkRequest {
  base_product_id : string;
  preferred_style : option StyleType;
  req_season : option string;
  num_outfits : option Z
}.

Record RecommendationResponse : Type := mkResponse {
  outfits : list Outfit;
  base_product : option Obj;   (* [None] is the placeholder [{} as Product] *)
  processing_time_ms : Q;
  cache_hit : bool
}.

(** ** Reasoning text *)

Definition ColorFamily_name (c : ColorFamily) : string :=
  match c with
  | black => "black" | white => "white" | gray => "gray" | navy => "navy"
  | brown => "brown" | beige => "beige" | cream => "cream" | green => "green"
  | blue => "blue" | red => "red" | pink => "pink" | purple => "purple"
  | orange => "orange" | multi => "multi"
  end.

Definition StyleType_name (s : StyleType) : string :=
  match s with
  | streetwear => "streetwear" | casual => "casual" | athletic => "athletic"
  | formal => "formal" | luxury => "luxury" | minimalist => "minimalist"
  end.

Fixpoint js_join (sep : string) (l : list string) : string :=
  match l with
  | [] => ""
  | [x] => x
  | x :: l' => x ++ sep ++ js_join sep l'
  end.

Definition opt_eqb (a b : option ColorFamily) : bool :=
  match a, b with
  | None, None => true
  | Some x, Some y => ColorFamily_eqb x y
  | _, _ => false
  end.

(** [[...new Set(xs)]]: first occurrences, in order. *)
Fixpoint dedup_first (seen : list (option ColorFamily)) (l : list (option ColorFamily))
  : list (option ColorFamily) :=
  match l with
  | [] => []
  | x :: l' =>
    if existsb (opt_eqb x) seen then dedup_first seen l'
    else x :: dedup_first (x :: seen) l'
  end.

(** [Array.prototype.join] renders [undefined] as the empty string. *)
Definition opt_color_name (c : option ColorFamily) : string :=
  match c with Some c => ColorFamily_name c | None => "" end.

Definition generateReasoning (breakdown : ScoreBreakdown) (items : list Product)
  (totalPrice : Z) : string :=
  let r1 :=
    if Qle_bool (85 # 100) (color_harmony breakdown) then
      let dominantColors := firstn 2 (dedup_first [] (map color_family items)) in
      ["Excellent color harmony with " ++ js_join " and " (map opt_color_name dominantColors)
       ++ " creating a cohesive palette"]
    else if Qle_bool (7 # 10) (color_harmony breakdown) then
      ["Well-balanced color coordination throughout"]
    else [] in
  let r2 :=
    if Qle_bool (85 # 100) (style_match breakdown) then
      let st := match items with i :: _ => style_of i | [] => casual end in
      ["Strong " ++ StyleType_name st ++ " aesthetic unity"]
    else if Qle_bool (7 # 10) (style_match breakdown) then
      ["Versatile style mix that transitions well"]
    else [] in
  let r3 := if Qle_bool (8 # 10) (brand_cohesion breakdown)
            then ["Matched brand positioning for a polished look"] else [] in
  let r4 := if Qle_bool (8 # 10) (price_balance breakdown)
            then ["Balanced investment across all pieces"] else [] in
  let reasons := (r1 ++ r2 ++ r3 ++ r4)%list in
  match reasons with
  | [] => "A versatile combination suitable for various occasions."
  | _ => js_join ". " reasons ++ "."
  end.

(** [generateOutfitId]: the id is built from [Date.now()] and one
    [Math.random()] draw; the draw is what is kept here. *)
Definition generateOutfitId : RandM Q := random.

(** ** Catalog provider (src/data/products.ts) *)

Fixpoint number_from (n : nat) (l : list Product) : list Obj :=
  match l with
  | [] => []
  | p :: l' => mkObj n p :: number_from (S n) l'
  end.

(** The static catalog, as an array of objects. *)
Variable products : list Product.

Definition catalog : list Obj := number_from 0 products.

(** Modelled from the spec: [getProductById] of src/data/products.ts (not
    in the sources) returns the catalog product with that [sku_id], or
    not-found. *)
Definition getProductById (id : string) : option Obj :=
  find (fun o => String.eqb (sku_id (val o)) id) catalog.

(** Modelled from the spec: [getProductsByCategory] of src/data/products.ts
    (not in the sources) returns the catalog products of that category, in
    catalog order. *)
Definition getProductsByCategory (cat : string) : list Obj :=
  filter (fun o => String.eqb (category (val o)) cat) catalog.

Definition priced (l : list Obj) : list Obj :=
  filter (fun p => Z.ltb 0 (lowest_price (val p))) l.

Definition getBaseProductOptions : list Product :=
  filter (fun p => Z.ltb 0 (lowest_price p)) products.

(** ** The main recommendation function *)

(** [Math.round(x * 100) / 100]; [Math.round] rounds half up. *)
Definition round2 (x : Q) : Q := inject_Z (Qfloor (x * 100 + (1 # 2))) / 100.

(** The weighted overall score ([matchScore], stored as [tempSortScore]). *)
Definition composite (breakdown : ScoreBreakdown) : Q :=
  color_harmony breakdown * (35 # 100) +
  style_match breakdown * (30 # 100) +
  brand_cohesion breakdown * (20 # 100) +
  price_balance breakdown * (0 # 100) +
  season_fit breakdown * (15 # 100).

(** [request.num_outfits || 3]: [undefined] and [0] are falsy. *)
Definition effective_num (n : option Z) : Z :=
  match n with
  | None => 3%Z
  | Some 0%Z => 3%Z
  | Some k => k
  end.

(** [arr.slice(0, n)]. *)
Definition js_slice0 {A} (l : list A) (n : Z) : list A :=
  if Z.leb 0 n then firstn (Z.to_nat n) l
  else firstn (List.length l - Z.to_nat (- n)) l.

Definition sku_find (pool : list Obj) (base : Obj) : option Obj :=
  find (fun p => String.eqb (sku_id (val p)) (sku_id (val base))) pool.

Definition base_category (base : Obj) (allTops allBottoms allFootwear : list Obj)
  : string :=
  match sku_find allTops base with
  | Some _ => "tops"
  | None =>
    match sku_find allBottoms base with
    | Some _ => "bottoms"
    | None =>
      match sku_find allFootwear base with
      | Some _ => "footwear"
      | None => "accessories"
      end
    end
  end.

(** [if (!slot) { slot = selectBestItem(pool minus selected, selected, ..);
    if (slot) selectedItems.push(slot) }] *)
Definition fill_slot (slot : option Obj) (pool selectedItems : list Obj)
  (preferredStyle : option StyleType) : RandM (option Obj * list Obj) :=
  match slot with
  | Some x => ret (Some x, selectedItems)
  | None =>
    let available := filter (fun t => negb (includes selectedItems t)) pool in
    r <- selectBestItem available selectedItems preferredStyle ;;
    ret (r, match r with
            | Some t => (selectedItems ++ [t])%list
            | None => selectedItems
            end)
  end.

(** The accessory loop [for (i = 0; i < numAccessories; i++)]. *)
Fixpoint add_accessories (k : nat) (allAccessories selectedItems acc : list Obj)
  (preferredStyle : option StyleType) : RandM (list Obj) :=
  match k with
  | O => ret acc
  | S k' =>
    a <- selectBestItem (filter (fun x => negb (includes acc x)) allAccessories)
                        (selectedItems ++ acc)%list preferredStyle ;;
    add_accessories k' allAccessories selectedItems
      (match a with Some x => (acc ++ [x])%list | None => acc end) preferredStyle
  end.

Definition combinationKey (t b s : Obj) : string :=
  sku_id (val t) ++ "-" ++ sku_id (val b) ++ "-" ++ sku_id (val s).

(** The loop state: the collected outfits with their [tempSortScore], and
    [usedCombinations]. *)
Definition LoopState : Type := (list (Outfit * Q) * list string)%type.

(** One iteration of the [attempt] loop. *)
Definition attempt_body (request : RecommendationRequest) (baseProduct : Obj)
  (baseCategory : string) (allTops allBottoms allFootwear allAccessories : list Obj)
  (attempt : Z) (st : LoopState) : RandM LoopState :=
  let '(outs, usedCombinations) := st in
  let pref := preferred_style request in
  let '(top0, bottom0, shoe0, sel0) :=
    if String.eqb baseCategory "tops" then (Some baseProduct, None, None, [baseProduct])
    else if String.eqb baseCategory "bottoms" then (None, Some baseProduct, None, [baseProduct])
    else if String.eqb baseCategory "footwear" then (None, None, Some baseProduct, [baseProduct])
    else (None, None, None, []) in
  r1 <- fill_slot top0 allTops sel0 pref ;;
  r2 <- fill_slot bottom0 allBottoms (snd r1) pref ;;
  r3 <- fill_slot shoe0 allFootwear (snd r2) pref ;;
  let selectedItems := snd r3 in
  match fst r1, fst r2, fst r3 with
  | Some t, Some b, Some s =>
    let key := combinationKey t b s in
    if existsb (String.eqb key) usedCombinations then ret st
    else
      let used' := (usedCombinations ++ [key])%list in
      let numAccessories := (1 + Z.modulo attempt 2)%Z in
      accs <- add_accessories (Z.to_nat numAccessories) allAccessories
                selectedItems [] pref ;;
      let allItems := map val (([t; b; s] ++ accs)%list) in
      let totalPrice := fold_left Z.add (map lowest_price allItems) 0%Z in
      let breakdown := mkBreakdown
        (calculateColorHarmony allItems)
        (calculateStyleMatch allItems)
        (calculateBrandCohesion allItems)
        (calculatePriceBalance allItems)
        (calculateSeasonFit allItems (req_season request)) in
      let matchScore := composite breakdown in
      oid <- generateOutfitId ;;
      let outfit := mkOutfit oid t b s accs
                      (round2 (style_match breakdown)) breakdown
                      (generateReasoning breakdown allItems totalPrice) totalPrice in
      ret ((outs ++ [(outfit, matchScore)])%list, used')
  | _, _, _ => ret st
  end.

(** [for (attempt = 0; attempt < numOutfits * 5 && outfits.length < numOutfits;
    attempt++)]; [fuel] bounds the number of iterations. *)
Fixpoint gen_loop (body : Z -> LoopState -> RandM LoopState) (fuel : nat)
  (numOutfits attempt : Z) (st : LoopState) : RandM LoopState :=
  match fuel with
  | O => ret st
  | S f =>
    if (Z.ltb attempt (numOutfits * 5) && Z.ltb (Z.of_nat (List.length (fst st))) numOutfits)%bool
    then st' <- body attempt st ;; gen_loop body f numOutfits (attempt + 1) st'
    else ret st
  end.

(** [generateOutfitRecommendations]; [t0] and [t1] are the two readings of
    [performance.now()], and draws of [Math.random()] start at [rnd 0]. *)
Definition generateOutfitRecommendations (request : RecommendationRequest)
  (t0 t1 : Q) : RecommendationResponse :=
  match getProductById (base_product_id request) with
  | None => mkResponse [] None (t1 - t0) false
  | Some baseProduct =>
    let allTops := priced (getProductsByCategory "tops") in
    let allBottoms := priced (getProductsByCategory "bottoms") in
    let allFootwear := priced (getProductsByCategory "footwear") in
    let allAccessories := priced (getProductsByCategory "accessories") in
    let baseCategory := base_category baseProduct allTops allBottoms allFootwear in
    let numOutfits := effective_num (num_outfits request) in
    let body := attempt_body request baseProduct baseCategory
                  allTops allBottoms allFootwear allAccessories in
    let '((outs, _), _) :=
      gen_loop body (Z.to_nat (numOutfits * 5)) numOutfits 0 ([], []) 0%nat in
    let sorted := map fst (sort_desc snd outs) in
    mkResponse (js_slice0 sorted numOutfits) (Some baseProduct)
               (round2 (t1 - t0)) false
  end.

End Engine.

(** The breakdown computed for the items of an outfit. *)
Definition breakdown_of (allItems : list Product) (targetSeason : option string)
  : ScoreBreakdown :=
  mkBreakdown (calculateColorHarmony allItems) (calculateStyleMatch allItems)
    (calculateBrandCohesion allItems) (calculatePriceBalance allItems)
    (calculateSeasonFit allItems targetSeason).

(** The three mandatory items and the accessories of an outfit. *)
Definition outfit_items (o : Outfit) : list Obj :=
  top o :: bottom o :: footwear o :: accessories o.

(** [Math.random()] returns a number in [[0, 1)]. *)
Definition random_in_range (rnd : nat -> Q) : Prop :=
  forall n, 0 <= rnd n /\ rnd n < 1.

(** The unordered identity of an outfit: the ids of its three mandatory
    items, as a list compared up to permutation. *)
Definition triple (o : Outfit) : list string :=
  [sku_id (val (top o)); sku_id (val (bottom o)); sku_id (val (footwear o))].

(** The ids of the mandatory items come from the matching pools. *)
Definition from_pools (products : list Product) (o : Outfit) : Prop :=
  (exists p, In p (priced (getProductsByCategory products "tops")) /\
             sku_id (val p) = sku_id (val (top o))) /\
  (exists p, In p (priced (getProductsByCategory products "bottoms")) /\
             sku_id (val p) = sku_id (val (bottom o))) /\
  (exists p, In p (priced (getProductsByCategory products "footwear")) /\
             sku_id (val p) = sku_id (val (footwear o))).

Definition outfit_key (p : Outfit * Q) : string :=
  combinationKey (top (fst p)) (bottom (fst p)) (footwear (fst p)).

(** The four outfit-eligible pools. *)
Definition pools (products : list Product) :=
  (priced (getProductsByCategory products "tops"),
   priced (getProductsByCategory products "bottoms"),
   priced (getProductsByCategory products "footwear"),
   priced (getProductsByCategory products "accessories")).

(** [handleGenerateOutfits] of src/pages/Index.tsx: nothing happens
    without a selected product; otherwise the engine is asked for three
    outfits around it and the response is stored. *)
Definition handleGenerateOutfits (rnd : nat -> Q) (products : list Product)
  (selectedProduct : option Product) (t0 t1 : Q) : option RecommendationResponse :=
  match selectedProduct with
  | None => None
  | Some p =>
    Some (generateOutfitRecommendations rnd products
            (mkRequest (sku_id p) None None (Some 3%Z)) t0 t1)
  end.

(** The pagination of src/pages/Index.tsx over [filteredProducts]. *)
Definition PRODUCTS_PER_PAGE : Z := 10.

(** [Math.ceil(filteredProducts.length / PRODUCTS_PER_PAGE)] *)
Definition totalPages (len : nat) : Z :=
  Qceiling (inject_Z (Z.of_nat len) / inject_Z PRODUCTS_PER_PAGE).

(** [Array.prototype.slice(start, end)]: a negative bound counts from the
    end, and both bounds are clamped to [0, length]. *)
Definition js_slice {A} (l : list A) (start end_ : Z) : list A :=
  let len := Z.of_nat (List.length l) in
  let rs := if Z.ltb start 0 then Z.max (len + start) 0 else Z.min start len in
  let re := if Z.ltb end_ 0 then Z.max (len + end_) 0 else Z.min end_ len in
  firstn (Z.to_nat (re - rs)) (skipn (Z.to_nat rs) l).

Definition currentProducts {A} (filteredProducts : list A) (currentPage : Z) : list A :=
  let startIndex := ((currentPage - 1) * PRODUCTS_PER_PAGE)%Z in
  let endIndex := (startIndex + PRODUCTS_PER_PAGE)%Z in
  js_slice filteredProducts startIndex endIndex.

(** The loop invariant of deduplication: [usedCombinations] holds the keys
    of the collected outfits, without repetition, and every collected
    outfit draws its mandatory items from the pools. *)
Definition keys_inv (products : list Product) (st : LoopState) : Prop :=
  map outfit_key (fst st) = snd st /\ NoDup (snd st) /\
  Forall (fun p => from_pools products (fst p)) (fst st).

(** An already selected item [s] that no item of the pool of category [c]
    can be mistaken for: it is a catalog object whose id belongs to a pool
    of another category. *)
Definition avoid_ok (products : list Product) (c : string) (s : Obj) : Prop :=
  In s (catalog products) /\
  exists c' p, c' <> c /\ In p (priced (getProductsByCategory products c')) /\
               sku_id (val p) = sku_id (val s).

(** ** Concrete catalogs *)

Module Scenario.

(** The catalog of the spec's scenario: a white casual top, a navy casual
    bottom, a white casual shoe and one bestseller accessory; the fields the
    scenario leaves open are fixed here, the accessory's colour is a
    parameter. *)
Definition TOP_001 := mkProduct "TOP_001" "Tee" "Basics" "tops" 1000
  (Some white) (Some casual) "all" [].
Definition BOTTOM_001 := mkProduct "BOTTOM_001" "Chino" "Basics" "bottoms" 1500
  (Some navy) (Some casual) "all" [].
Definition SHOE_001 := mkProduct "SHOE_001" "Sneaker" "Basics" "footwear" 2000
  (Some white) (Some casual) "all" [].
Definition ACC_001 (c : option ColorFamily) := mkProduct "ACC_001" "Cap" "Basics"
  "accessories" 500 c (Some casual) "all" ["bestseller"].

Definition catalog8 (c : option ColorFamily) : list Product :=
  [TOP_001; BOTTOM_001; SHOE_001; ACC_001 c].

Definition request8 : RecommendationRequest := mkRequest "TOP_001" None None (Some 1%Z).

(** Three bottoms, so that three distinct outfits exist. *)
Definition BOTTOM_002 := mkProduct "BOTTOM_002" "Jeans" "Basics" "bottoms" 1800
  (Some blue) (Some casual) "all" [].
Definition BOTTOM_003 := mkProduct "BOTTOM_003" "Shorts" "Basics" "bottoms" 900
  (Some beige) (Some casual) "all" [].

Definition catalog3 : list Product :=
  [TOP_001; BOTTOM_001; BOTTOM_002; BOTTOM_003; SHOE_001; ACC_001 (Some black)].

(** A draw stream cycling through [0, 1/3, 2/3]. *)
Definition rnd3 (n : nat) : Q := inject_Z (Z.of_nat (n mod 3)) / 3.

(** Two accessories; the base product is the one that is not a bestseller. *)
Definition ACC_002 := mkProduct "ACC_002" "Belt" "Basics" "accessories" 700
  (Some black) (Some casual) "all" ["bestseller"].
Definition ACC_003 := mkProduct "ACC_003" "Scarf" "Basics" "accessories" 600
  (Some multi) (Some formal) "all" [].

Definition catalog_acc : list Product :=
  [TOP_001; BOTTOM_001; SHOE_001; ACC_002; ACC_003].

(** A catalog without accessories, and one without bottoms. *)
Definition catalog_noacc : list Product := [TOP_001; BOTTOM_001; SHOE_001].

Definition catalog_nobottom : list Product := [TOP_001; SHOE_001; ACC_001 (Some black)].

(** [catalog3] with two more accessories: three accessories in all. *)
Definition catalog_acc5 : list Product := (catalog3 ++ [ACC_002; ACC_003])%list.

End Scenario.

(** ** Sorting *)

Section Sorting.
Context {A : Type} (key : A -> Q).

Definition desc (x y : A) : Prop := key y <= key x.

Lemma insert_desc_perm x l : Permutation (insert_desc key x l) (x :: l).
Proof.
  induction l as [|y l IH]; simpl; [reflexivity|].
  destruct (Qle_bool (key y) (key x)); [reflexivity|].
  rewrite IH. apply perm_swap.
Qed.

Lemma sort_desc_perm l : Permutation (sort_desc key l) l.
Proof.
  induction l as [|x l IH]; simpl; [reflexivity|].
  rewrite insert_desc_perm. now constructor.
Qed.

Lemma insert_desc_sorted x l :
  Sorted desc l -> Sorted desc (insert_desc key x l).
Proof.
  induction 1 as [|y l Hs IH Hhd]; simpl.
  - repeat constructor.
  - destruct (Qle_bool (key y) (key x)) eqn:E.
    + apply Qle_bool_iff in E. constructor; [now constructor|]. now constructor.
    + assert (Hyx : key x <= key y).
      { apply Qlt_le_weak, Qnot_le_lt. intro H. apply Qle_bool_iff in H. congruence. }
      constructor; [exact IH|].
      destruct l as [|z l]; simpl; [now constructor|].
      inversion Hhd; subst.
      destruct (Qle_bool (key z) (key x)); now constructor.
Qed.

Lemma sort_desc_sorted l : Sorted desc (sort_desc key l).
Proof.
  induction l as [|x l IH]; simpl; [constructor|].
  now apply insert_desc_sorted.
Qed.

End Sorting.

Lemma Sorted_firstn {A} (R : A -> A -> Prop) n l :
  Sorted R l -> Sorted R (firstn n l).
Proof.
  revert l; induction n as [|n IH]; intros l H; simpl; [constructor|].
  destruct l as [|x l]; [constructor|].
  apply Sorted_inv in H as [Hl Hhd].
  constructor; [now apply IH|].
  destruct n, l; simpl; try constructor.
  now inversion Hhd.
Qed.

Lemma Sorted_map {A B} (R : B -> B -> Prop) (f : A -> B) l :
  Sorted (fun x y => R (f x) (f y)) l -> Sorted R (map f l).
Proof.
  induction 1 as [|x l Hs IH Hhd]; simpl; constructor; [exact IH|].
  destruct Hhd; simpl; now constructor.
Qed.

(** ** The selector *)

Lemma js_index_in {A} (l : list A) i x : js_index l i = Some x -> In x l.
Proof.
  unfold js_index. destruct (Z.ltb i 0); [discriminate|].
  apply nth_error_In.
Qed.

Lemma in_firstn {A} n (l : list A) x : In x (firstn n l) -> In x l.
Proof.
  intro H. rewrite <- (firstn_skipn n l). apply in_or_app. now left.
Qed.

Lemma selectBestItem_in rnd cands ex pref n x :
  fst (selectBestItem rnd cands ex pref n) = Some x -> In x cands.
Proof.
  intro H. destruct cands as [|c cs]; [discriminate|].
  cbv beta iota zeta delta [selectBestItem bind random ret fst] in H.
  destruct (js_index _ _) as [[y s]|] eqn:E; simpl in H; [|discriminate].
  injection H as <-.
  apply js_index_in, in_firstn in E.
  apply (Permutation_in _ (sort_desc_perm _ _)) in E.
  apply in_map_iff in E as [z [Hz Hin]].
  injection Hz as -> _. exact Hin.
Qed.

Lemma inject_Z_nonneg (m : nat) : 0 <= inject_Z (Z.of_nat m).
Proof. change 0 with (inject_Z 0). rewrite <- Zle_Qle. lia. Qed.

(** [Math.floor(Math.random() * m)] is an index in [[0, m)]. *)
Lemma floor_index u (m : nat) :
  0 <= u /\ u < 1 -> (0 < m)%nat ->
  (0 <= Qfloor (u * inject_Z (Z.of_nat m)) < Z.of_nat m)%Z.
Proof.
  intros [Hu0 Hu1] Hm.
  set (M := inject_Z (Z.of_nat m)).
  assert (HM : 0 < M).
  { unfold M. change 0 with (inject_Z 0). rewrite <- Zlt_Qlt. lia. }
  assert (Hq0 : 0 <= u * M) by (apply Qmult_le_0_compat; [exact Hu0|apply Qlt_le_weak, HM]).
  assert (Hq1 : u * M < M).
  { rewrite <- (Qmult_1_l M) at 2. apply Qmult_lt_r; assumption. }
  split.
  - pose proof (Qlt_floor (u * M)) as H.
    assert (H' : inject_Z 0 < inject_Z (Qfloor (u * M) + 1)) by
      (apply (Qle_lt_trans _ (u * M)); assumption).
    rewrite <- Zlt_Qlt in H'. lia.
  - pose proof (Qfloor_le (u * M)) as H.
    assert (H' : inject_Z (Qfloor (u * M)) < M) by (apply (Qle_lt_trans _ (u * M)); assumption).
    unfold M in H'. rewrite <- Zlt_Qlt in H'. exact H'.
Qed.

Lemma selectBestItem_some rnd cands ex pref n :
  cands <> [] -> 0 <= rnd n /\ rnd n < 1 ->
  exists x, fst (selectBestItem rnd cands ex pref n) = Some x.
Proof.
  intros Hne Hr. destruct cands as [|c cs]; [congruence|].
  cbv beta iota zeta delta [selectBestItem bind random ret fst].
  match goal with |- context [js_index ?L _] => set (TL := L) end.
  assert (Hlen : (0 < List.length TL)%nat).
  { subst TL. rewrite length_firstn, (Permutation_length (sort_desc_perm _ _)), length_map.
    simpl. lia. }
  pose proof (floor_index (rnd n) (List.length TL) Hr Hlen) as [H0 H1].
  unfold js_index, len_Q.
  destruct (Z.ltb_spec (Qfloor (rnd n * inject_Z (Z.of_nat (List.length TL)))) 0); [lia|].
  destruct (nth_error TL _) as [[y s]|] eqn:E.
  - now exists y.
  - apply nth_error_None in E. lia.
Qed.

Lemma selectBestItem_nil rnd ex pref n :
  selectBestItem rnd [] ex pref n = (None, n).
Proof. reflexivity. Qed.

Lemma fill_slot_spec rnd slot pool sel pref n x :
  fst (fst (fill_slot rnd slot pool sel pref n)) = Some x ->
  slot = Some x \/ (slot = None /\ In x pool).
Proof.
  destruct slot as [y|]; simpl.
  - intros ->. now left.
  - unfold bind, ret. destruct (selectBestItem rnd _ sel pref n) as [r n'] eqn:E.
    simpl. intros ->. right. split; [reflexivity|].
    assert (Hf : fst (selectBestItem rnd (filter (fun t => negb (includes sel t)) pool) sel pref n) = Some x)
      by now rewrite E.
    apply selectBestItem_in, filter_In in Hf. apply Hf.
Qed.

(** ** Accessories *)

Lemma add_accessories_length rnd k A sel acc pref n :
  (List.length acc <= List.length (fst (add_accessories rnd k A sel acc pref n))
   <= List.length acc + k)%nat.
Proof.
  revert acc n; induction k as [|k IH]; intros acc n; simpl; [lia|].
  unfold bind. destruct (selectBestItem _ _ _ _ n) as [[a|] n'].
  - specialize (IH (acc ++ [a])%list n'). rewrite length_app in IH. simpl in IH. lia.
  - specialize (IH acc n'). lia.
Qed.

Lemma add_accessories_nonempty rnd k A sel pref n :
  random_in_range rnd -> A <> [] -> (1 <= k)%nat ->
  (1 <= List.length (fst (add_accessories rnd k A sel [] pref n)))%nat.
Proof.
  intros Hr HA Hk. destruct k as [|k]; [lia|]. simpl. unfold bind.
  rewrite filter_true.
  destruct (selectBestItem_some rnd A (sel ++ []) pref n HA (Hr n)) as [x Hx].
  destruct (selectBestItem rnd A _ pref n) as [a n'] eqn:E. simpl in Hx. subst a.
  pose proof (add_accessories_length rnd k A sel [x] pref n'). simpl in *. lia.
Qed.

(** ** One attempt *)

Ltac fill_step :=
  match goal with
  | |- context [fill_slot ?r ?s ?p ?l ?pr ?k] =>
    let E := fresh "E" in
    destruct (fill_slot r s p l pr k) as [[[?|] ?] ?] eqn:E;
    cbv beta iota zeta delta [fst snd]
  end.

Lemma fill_slot_from rnd slot pool sel pref n x s n' :
  fill_slot rnd slot pool sel pref n = (Some x, s, n') ->
  slot = Some x \/ (slot = None /\ In x pool).
Proof. intro E. apply (fill_slot_spec rnd slot pool sel pref n). now rewrite E. Qed.

Lemma attempt_body_cases rnd req base cat T B F A attempt outs used n :
  let r := fst (attempt_body rnd req base cat T B F A attempt (outs, used) n) in
  r = (outs, used) \/
  exists o,
    r = ((outs ++ [(o, composite (score_breakdown o))])%list,
         (used ++ [combinationKey (top o) (bottom o) (footwear o)])%list) /\
    existsb (String.eqb (combinationKey (top o) (bottom o) (footwear o))) used = false /\
    match_score o = round2 (style_match (score_breakdown o)) /\
    score_breakdown o = breakdown_of (map val (outfit_items o)) (req_season req) /\
    ((cat = "tops" /\ top o = base) \/ In (top o) T) /\
    ((cat = "bottoms" /\ bottom o = base) \/ In (bottom o) B) /\
    ((cat = "footwear" /\ footwear o = base) \/ In (footwear o) F) /\
    (exists sel n', accessories o =
       fst (add_accessories rnd (Z.to_nat (1 + Z.modulo attempt 2)) A sel []
              (preferred_style req) n')).
Proof.
  intro r. subst r. unfold attempt_body, bind.
  destruct (String.eqb_spec cat "tops") as [Ht|Ht];
  [|destruct (String.eqb_spec cat "bottoms") as [Hb|Hb];
    [|destruct (String.eqb_spec cat "footwear") as [Hf|Hf]]];
  cbv beta iota zeta;
  do 3 fill_step; try (left; reflexivity);
  match goal with
  | |- context [existsb (String.eqb ?k) used] =>
    destruct (existsb (String.eqb k) used) eqn:Hk; [left; reflexivity|]
  end;
  cbv beta iota zeta delta [generateOutfitId random ret fst snd];
  match goal with
  | |- context [add_accessories ?r ?k ?a ?s ?c ?p ?m] =>
    destruct (add_accessories r k a s c p m) as [accs n4] eqn:Eacc
  end;
  right;
  match goal with
  | |- exists o, ((_ ++ [(?x, _)])%list, _) = _ /\ _ => exists x
  end;
  (split; [reflexivity|]);
  cbn [top bottom footwear accessories match_score score_breakdown];
  (split; [exact Hk|]); (split; [reflexivity|]); (split; [reflexivity|]);
  (split; [|split; [|split]]).
  all: try match goal with
    | Eacc : add_accessories _ _ _ ?s _ _ ?m = _ |- exists _ _, _ =>
        exists s, m; rewrite Eacc; reflexivity
    end.
  all: repeat match goal with
    | E : fill_slot _ _ _ _ _ _ = (Some _, _, _) |- _ =>
        apply fill_slot_from in E;
        let H := fresh "Hs" in destruct E as [H|[_ H]]; [try discriminate H; injection H as H|]
    end.
  all: first [ left; split; congruence | right; assumption ].
Qed.

(** ** The attempt loop *)

Lemma gen_loop_inv (P : LoopState -> Prop) body :
  (forall a st n, P st -> P (fst (body a st n))) ->
  forall fuel N a st n, P st -> P (fst (gen_loop body fuel N a st n)).
Proof.
  intros Hb fuel; induction fuel as [|fuel IH]; intros N a st n Hst; simpl; [exact Hst|].
  destruct (_ && _)%bool; simpl; [|exact Hst].
  unfold bind. destruct (body a st n) as [st' n'] eqn:E.
  apply IH. specialize (Hb a st n Hst). now rewrite E in Hb.
Qed.

Lemma js_slice0_in {A} (l : list A) n x : In x (js_slice0 l n) -> In x l.
Proof. unfold js_slice0. destruct (Z.leb 0 n); apply in_firstn. Qed.

(** For a resolvable base product, the outfits of the response are the
    sorted, sliced result of the attempt loop; any invariant of one
    attempt holds of that result. *)
Lemma generate_valid rnd products req t0 t1 base (P : LoopState -> Prop) :
  getProductById products (base_product_id req) = Some base ->
  (forall T B F A, pools products = (T, B, F, A) ->
   forall a st n, P st ->
     P (fst (attempt_body rnd req base (base_category base T B F) T B F A a st n))) ->
  P ([], []) ->
  exists st,
    P st /\
    outfits (generateOutfitRecommendations rnd products req t0 t1)
      = js_slice0 (map fst (sort_desc snd (fst st))) (effective_num (num_outfits req)) /\
    ((effective_num (num_outfits req) < 0)%Z -> fst st = []) /\
    base_product (generateOutfitRecommendations rnd products req t0 t1) = Some base /\
    cache_hit (generateOutfitRecommendations rnd products req t0 t1) = false.
Proof.
  intros Hb Hbody H0.
  unfold generateOutfitRecommendations. rewrite Hb. cbv zeta.
  match goal with
  | |- context [gen_loop ?body ?fuel ?N 0%Z ([], []) 0%nat] =>
    destruct (gen_loop body fuel N 0%Z ([], []) 0%nat) as [[outs used] m] eqn:E;
    exists (outs, used); split; [|split; [reflexivity|split; [|split; reflexivity]]]
  end.
  - match type of E with gen_loop ?body ?fuel ?N ?a ?s ?k = _ =>
      pose proof (gen_loop_inv P body (Hbody _ _ _ _ eq_refl) fuel N a s k H0) as HP
    end.
    now rewrite E in HP.
  - intro Hneg.
    replace (Z.to_nat (effective_num (num_outfits req) * 5)) with 0%nat in E by lia.
    simpl in E. now injection E as <- <-.
Qed.

(** Every outfit of the response was produced by some attempt. *)
Lemma in_response rnd products req t0 t1 base (Po : Outfit -> Q -> Prop) o :
  getProductById products (base_product_id req) = Some base ->
  (forall T B F A, pools products = (T, B, F, A) ->
   forall a st n, Forall (fun p => Po (fst p) (snd p)) (fst st) ->
     Forall (fun p => Po (fst p) (snd p))
       (fst (fst (attempt_body rnd req base (base_category base T B F) T B F A a st n)))) ->
  In o (outfits (generateOutfitRecommendations rnd products req t0 t1)) ->
  exists sc, Po o sc.
Proof.
  intros Hb Hbody Hin.
  destruct (generate_valid rnd products req t0 t1 base
              (fun st => Forall (fun p => Po (fst p) (snd p)) (fst st)) Hb Hbody
              (Forall_nil _)) as [st [HP [Hout _]]].
  rewrite Hout in Hin. apply js_slice0_in in Hin.
  apply in_map_iff in Hin as [[o' sc] [Ho Hin]]. simpl in Ho. subst o'.
  apply (Permutation_in _ (sort_desc_perm _ _)) in Hin.
  exists sc. rewrite Forall_forall in HP. exact (HP _ Hin).
Qed.

(** A per-outfit property established by every successful attempt. *)
Lemma attempt_forall rnd req base cat T B F A (Po : Outfit -> Q -> Prop) :
  (forall attempt o,
     match_score o = round2 (style_match (score_breakdown o)) ->
     score_breakdown o = breakdown_of (map val (outfit_items o)) (req_season req) ->
     ((cat = "tops" /\ top o = base) \/ In (top o) T) ->
     ((cat = "bottoms" /\ bottom o = base) \/ In (bottom o) B) ->
     ((cat = "footwear" /\ footwear o = base) \/ In (footwear o) F) ->
     (exists sel n', accessories o =
        fst (add_accessories rnd (Z.to_nat (1 + Z.modulo attempt 2)) A sel []
               (preferred_style req) n')) ->
     Po o (composite (score_breakdown o))) ->
  forall a st n, Forall (fun p => Po (fst p) (snd p)) (fst st) ->
    Forall (fun p => Po (fst p) (snd p))
      (fst (fst (attempt_body rnd req base cat T B F A a st n))).
Proof.
  intros HQ a [outs used] n Hst.
  destruct (attempt_body_cases rnd req base cat T B F A a outs used n)
    as [E|[o (E & Hk & Hm & Hbd & Ht & Hb & Hf & Hacc)]]; rewrite E; [exact Hst|].
  simpl. apply Forall_app. split; [exact Hst|].
  constructor; [|constructor]. simpl. now apply (HQ a).
Qed.

Lemma in_response_valid rnd products req t0 t1 o :
  In o (outfits (generateOutfitRecommendations rnd products req t0 t1)) ->
  exists base, getProductById products (base_product_id req) = Some base.
Proof.
  unfold generateOutfitRecommendations.
  destruct (getProductById products (base_product_id req)) as [base|]; [eauto|].
  simpl. intros [].
Qed.

(** ** Score bounds *)

Lemma len_Q_cons {A} (x : A) l : len_Q (x :: l) == 1 + len_Q l.
Proof.
  unfold len_Q. simpl List.length. rewrite Nat2Z.inj_succ, <- Z.add_1_l, inject_Z_plus.
  reflexivity.
Qed.

Lemma len_Q_nonneg {A} (l : list A) : 0 <= len_Q l.
Proof. apply inject_Z_nonneg. Qed.

Lemma Qsum_fold l acc : fold_left Qplus l acc == acc + Qsum l.
Proof.
  unfold Qsum. revert acc; induction l as [|x l IH]; intro acc; simpl; [lra|].
  rewrite (IH (acc + x)), (IH (0 + x)). lra.
Qed.

Lemma Qsum_cons x l : Qsum (x :: l) == x + Qsum l.
Proof. unfold Qsum at 1. simpl. rewrite Qsum_fold. lra. Qed.

Lemma Qsum_unit l :
  Forall (fun x => 0 <= x <= 1) l -> 0 <= Qsum l <= len_Q l.
Proof.
  induction 1 as [|x l Hx Hl IH];
    [unfold Qsum, len_Q; simpl; split; apply Qle_bool_iff; reflexivity|].
  rewrite Qsum_cons, len_Q_cons. lra.
Qed.

Lemma Qsum_nonneg l : Forall (fun x => 0 <= x) l -> 0 <= Qsum l.
Proof.
  induction 1 as [|x l Hx Hl IH]; [unfold Qsum; simpl; apply Qle_refl|].
  rewrite Qsum_cons. lra.
Qed.

Lemma Qdiv_nonneg a b : 0 <= a -> 0 <= b -> 0 <= a / b.
Proof.
  intros Ha Hb. unfold Qdiv. apply Qmult_le_0_compat; [exact Ha|].
  now apply Qinv_le_0_compat.
Qed.

Lemma Qdiv_unit a b : 0 <= a -> a <= b -> 0 < b -> 0 <= a / b <= 1.
Proof.
  intros Ha Hab Hb. split; [apply Qdiv_nonneg; lra|].
  apply Qle_shift_div_r; [exact Hb|]. lra.
Qed.

Lemma pairwise_bounds f items :
  (forall a b, 0 <= f a b <= 1) ->
  0 <= fst (pairwise f items) <= inject_Z (Z.of_nat (snd (pairwise f items))).
Proof.
  intro Hf. induction items as [|x rest IH]; simpl;
    [split; apply Qle_bool_iff; reflexivity|].
  destruct (pairwise f rest) as [t c]. simpl in *.
  assert (Hs : 0 <= Qsum (map (f x) rest) <= len_Q rest).
  { replace (len_Q rest) with (len_Q (map (f x) rest)) by (unfold len_Q; now rewrite length_map).
    apply Qsum_unit, Forall_forall. intros y Hy. apply in_map_iff in Hy as [z [<- _]]. apply Hf. }
  rewrite Nat2Z.inj_add, inject_Z_plus. unfold len_Q in Hs. lra.
Qed.

Lemma pairwise_mean_unit f items :
  (forall a b, 0 <= f a b <= 1) -> 0 <= pairwise_mean f items <= 1.
Proof.
  intro Hf. pose proof (pairwise_bounds f items Hf) as Hb.
  unfold pairwise_mean. destruct (pairwise f items) as [t c]. simpl in Hb.
  destruct (Nat.ltb_spec 0 c) as [Hc|Hc]; [|lra].
  apply Qdiv_unit; try lra.
  change 0 with (inject_Z 0). rewrite <- Zlt_Qlt. lia.
Qed.

Lemma color_score_unit a b : 0 <= color_score a b <= 1.
Proof. destruct a, b; split; apply Qle_bool_iff; reflexivity. Qed.

Lemma style_score_unit a b : 0 <= style_score a b <= 1.
Proof. destruct a, b; split; apply Qle_bool_iff; reflexivity. Qed.

Lemma Qmax_unit v : 0 <= v -> 0 <= Qmax 0 (1 - v) <= 1.
Proof.
  intro Hv. split; [apply Q.le_max_l|].
  apply Q.max_lub; lra.
Qed.

Lemma squares_nonneg (g : Q -> Q) l :
  0 <= Qsum (map (fun t => g t * g t) l).
Proof.
  apply Qsum_nonneg, Forall_forall. intros y Hy.
  apply in_map_iff in Hy as [z [<- _]].
  destruct (Qlt_le_dec (g z) 0) as [H|H]; nra.
Qed.

Lemma color_harmony_unit items : 0 <= calculateColorHarmony items <= 1.
Proof. apply pairwise_mean_unit. intros; apply color_score_unit. Qed.

Lemma style_match_unit items : 0 <= calculateStyleMatch items <= 1.
Proof. apply pairwise_mean_unit. intros; apply style_score_unit. Qed.

Lemma brand_cohesion_unit items : 0 <= calculateBrandCohesion items <= 1.
Proof.
  unfold calculateBrandCohesion. cbv zeta. apply Qmax_unit.
  apply Qdiv_nonneg; [|lra]. apply Qdiv_nonneg; [|apply len_Q_nonneg].
  match goal with
  | |- 0 <= Qsum (map (fun t => (t - ?m) * (t - ?m)) ?l) =>
    exact (squares_nonneg (fun t => t - m) l)
  end.
Qed.

Lemma price_balance_unit items : 0 <= calculatePriceBalance items <= 1.
Proof.
  unfold calculatePriceBalance. cbv zeta.
  destruct (map inject_Z _) as [|p ps]; [split; apply Qle_bool_iff; reflexivity|].
  apply Qmax_unit. apply Qdiv_nonneg; [|apply len_Q_nonneg].
  match goal with
  | |- 0 <= Qsum (map (fun p => ((p - ?m) / ?m) * ((p - ?m) / ?m)) ?l) =>
    exact (squares_nonneg (fun p => (p - m) / m) l)
  end.
Qed.

Lemma season_fit_unit items t :
  items <> [] -> 0 <= calculateSeasonFit items t <= 1.
Proof.
  intro Hne. unfold calculateSeasonFit.
  destruct t as [t|]; [|split; apply Qle_bool_iff; reflexivity].
  destruct (String.eqb t "" || String.eqb t "all")%bool;
    [split; apply Qle_bool_iff; reflexivity|].
  unfold len_Q. apply Qdiv_unit.
  - apply inject_Z_nonneg.
  - rewrite <- Zle_Qle. pose proof (filter_length_le
      (fun item => (String.eqb (season item) "all" || String.eqb (season item) t)%bool) items).
    lia.
  - change 0 with (inject_Z 0). rewrite <- Zlt_Qlt.
    destruct items; [congruence|]. simpl. lia.
Qed.

Lemma round2_unit x : 0 <= x <= 1 -> 0 <= round2 x <= 1.
Proof.
  intro Hx. unfold round2.
  set (y := x * 100 + (1 # 2)).
  assert (Hy : 0 <= y <= 101 - (1 # 2)) by (unfold y; lra).
  pose proof (Qfloor_le y) as H1. pose proof (Qlt_floor y) as H2.
  assert (Hlo : (0 <= Qfloor y)%Z).
  { assert (H : inject_Z 0 < inject_Z (Qfloor y + 1))
      by (apply (Qle_lt_trans _ y); [apply Hy|exact H2]).
    rewrite <- Zlt_Qlt in H. lia. }
  assert (Hhi : (Qfloor y <= 100)%Z).
  { assert (H : inject_Z (Qfloor y) < inject_Z 101).
    { apply (Qle_lt_trans _ y); [exact H1|]. change (inject_Z 101) with (101 # 1). lra. }
    rewrite <- Zlt_Qlt in H. lia. }
  apply Qdiv_unit.
  - change 0 with (inject_Z 0). now rewrite <- Zle_Qle.
  - change 100 with (inject_Z 100). now rewrite <- Zle_Qle.
  - lra.
Qed.

(** ** Claims *)

Import Scenario.

(** C1: every outfit of a response reports as [match_score] its
    [style_match] rounded to two decimals ([Math.round(x * 100) / 100]); the
    composite score used for ranking is kept apart from the outfit (see
    C2). *)
Theorem match_score_is_rounded_style_match rnd products req t0 t1 o :
  In o (outfits (generateOutfitRecommendations rnd products req t0 t1)) ->
  match_score o = round2 (style_match (score_breakdown o)).
Proof.
  intro Hin. destruct (in_response_valid _ _ _ _ _ _ Hin) as [base Hb].
  set (Po := fun o (_ : Q) => match_score o = round2 (style_match (score_breakdown o))).
  destruct (in_response rnd products req t0 t1 base Po o Hb) as [sc H]; [|exact Hin|exact H].
  intros T B F A _. apply (attempt_forall _ _ _ _ _ _ _ _ Po). intros; assumption.
Qed.

Lemma match_score_is_rounded_style_match_witness :
  exists o,
    In o (outfits (generateOutfitRecommendations (fun _ => 0) (catalog8 None) request8 0 1)) /\
    match_score o = round2 (style_match (score_breakdown o)).
Proof.
  destruct (outfits (generateOutfitRecommendations (fun _ => 0) (catalog8 None) request8 0 1))
    as [|o l] eqn:E; [vm_compute in E; discriminate|].
  exists o. split; [left; reflexivity|].
  apply (match_score_is_rounded_style_match (fun _ => 0) (catalog8 None) request8 0 1 o).
  rewrite E. left; reflexivity.
Defined.

(** C4: when [base_product_id] does not resolve, the call returns (it has
    no failure path) an empty outfit list, the placeholder base product,
    the elapsed time between the two clock readings (non-negative for a
    monotone clock) and [cache_hit = false]. *)
Theorem unresolved_base_empty_response rnd products req t0 t1 :
  getProductById products (base_product_id req) = None ->
  t0 <= t1 ->
  let r := generateOutfitRecommendations rnd products req t0 t1 in
  outfits r = [] /\ base_product r = None /\
  processing_time_ms r = t1 - t0 /\ 0 <= processing_time_ms r /\
  cache_hit r = false.
Proof.
  intros Hb Ht r. subst r. unfold generateOutfitRecommendations. rewrite Hb. simpl.
  repeat split; try reflexivity. lra.
Qed.

Lemma unresolved_base_empty_response_witness :
  let r := generateOutfitRecommendations (fun _ => 0) (catalog8 None)
             (mkRequest "NOT_REAL" None None (Some 3%Z)) 0 1 in
  outfits r = [] /\ base_product r = None /\
  processing_time_ms r = 1 - 0 /\ 0 <= processing_time_ms r /\ cache_hit r = false.
Proof.
  apply (unresolved_base_empty_response (fun _ => 0) (catalog8 None)
           (mkRequest "NOT_REAL" None None (Some 3%Z)) 0 1).
  - vm_compute. reflexivity.
  - apply Qle_bool_iff. reflexivity.
Defined.

(** C5: every field of the score breakdown of every returned outfit, and
    its [match_score], lie in [[0, 1]]. *)
Theorem scores_in_unit_interval rnd products req t0 t1 o :
  In o (outfits (generateOutfitRecommendations rnd products req t0 t1)) ->
  let b := score_breakdown o in
  (0 <= color_harmony b <= 1) /\ (0 <= style_match b <= 1) /\
  (0 <= brand_cohesion b <= 1) /\ (0 <= price_balance b <= 1) /\
  (0 <= season_fit b <= 1) /\ (0 <= match_score o <= 1).
Proof.
  intro Hin. destruct (in_response_valid _ _ _ _ _ _ Hin) as [base Hb].
  set (Po := fun o (_ : Q) => let b := score_breakdown o in
       (0 <= color_harmony b <= 1) /\ (0 <= style_match b <= 1) /\
       (0 <= brand_cohesion b <= 1) /\ (0 <= price_balance b <= 1) /\
       (0 <= season_fit b <= 1) /\ (0 <= match_score o <= 1)).
  destruct (in_response rnd products req t0 t1 base Po o Hb) as [sc H]; [|exact Hin|exact H].
  intros T B F A _. apply (attempt_forall _ _ _ _ _ _ _ _ Po).
  intros attempt o' Hm Hbd _ _ _ _. unfold Po. rewrite Hm, Hbd. unfold breakdown_of. simpl.
  split; [apply color_harmony_unit|]. split; [apply style_match_unit|].
  split; [apply brand_cohesion_unit|]. split; [apply price_balance_unit|].
  split; [apply season_fit_unit; discriminate|].
  apply round2_unit, style_match_unit.
Qed.

Lemma scores_in_unit_interval_witness :
  exists o,
    In o (outfits (generateOutfitRecommendations (fun _ => 0) (catalog8 None) request8 0 1)) /\
    let b := score_breakdown o in
    (0 <= color_harmony b <= 1) /\ (0 <= style_match b <= 1) /\
    (0 <= brand_cohesion b <= 1) /\ (0 <= price_balance b <= 1) /\
    (0 <= season_fit b <= 1) /\ (0 <= match_score o <= 1).
Proof.
  destruct (outfits (generateOutfitRecommendations (fun _ => 0) (catalog8 None) request8 0 1))
    as [|o l] eqn:E; [vm_compute in E; discriminate|].
  exists o. split; [left; reflexivity|].
  apply (scores_in_unit_interval (fun _ => 0) (catalog8 None) request8 0 1 o).
  rewrite E. left; reflexivity.
Defined.

(** C8: both matrices are total over their enumeration squared (every
    lookup [M[a]?.[b]] finds an entry, so the [?? 0.5] fallback is never
    taken) and symmetric. *)
Theorem matrices_total_and_symmetric :
  (forall a b : ColorFamily, exists v,
     lookup2 ColorFamily_eqb COLOR_HARMONY a b = Some v /\
     lookup2 ColorFamily_eqb COLOR_HARMONY b a = Some v) /\
  (forall a b : StyleType, exists v,
     lookup2 StyleType_eqb STYLE_COMPATIBILITY a b = Some v /\
     lookup2 StyleType_eqb STYLE_COMPATIBILITY b a = Some v).
Proof.
  split; intros a b; destruct a, b; eexists; split; reflexivity.
Qed.

(** ** Ranking *)

Lemma Sorted_Forall_impl {A} (P : A -> Prop) (R R' : A -> A -> Prop) l :
  (forall x y, P x -> P y -> R x y -> R' x y) ->
  Forall P l -> Sorted R l -> Sorted R' l.
Proof.
  intros HR HP HS. induction HS as [|x l HS IH Hhd]; constructor.
  - apply IH. now inversion HP.
  - inversion HP as [|? ? Hx Hl]; subst.
    destruct Hhd as [|y l' Hxy]; constructor.
    apply HR; [exact Hx| |exact Hxy]. now inversion Hl.
Qed.

Lemma Forall_sort_desc {A} (key : A -> Q) (P : A -> Prop) l :
  Forall P l -> Forall P (sort_desc key l).
Proof.
  rewrite !Forall_forall. intros H x Hx. apply H.
  exact (Permutation_in _ (sort_desc_perm key l) Hx).
Qed.

Lemma attempt_keeps_scores rnd products req base T B F A :
  pools products = (T, B, F, A) ->
  forall a st n,
    Forall (fun p => snd p = composite (score_breakdown (fst p))) (fst st) ->
    Forall (fun p => snd p = composite (score_breakdown (fst p)))
      (fst (fst (attempt_body rnd req base (base_category base T B F) T B F A a st n))).
Proof.
  intros _. apply (attempt_forall _ _ _ _ _ _ _ _ (fun o sc => sc = composite (score_breakdown o))).
  intros; reflexivity.
Qed.

(** C2 (as amended): the outfits of a response are sorted by the composite
    score [0.35 color + 0.30 style + 0.20 brand + 0.00 price + 0.15 season]
    of their breakdown, descending, and there are at most [n] of them, [n]
    being [request.num_outfits || 3] (at most 0 when that is negative). *)
Theorem outfits_ranked_by_composite rnd products req t0 t1 :
  let os := outfits (generateOutfitRecommendations rnd products req t0 t1) in
  Sorted (fun o1 o2 => composite (score_breakdown o2) <= composite (score_breakdown o1)) os /\
  (List.length os <= Z.to_nat (effective_num (num_outfits req)))%nat.
Proof.
  intro os. subst os.
  destruct (getProductById products (base_product_id req)) as [base|] eqn:Hb.
  2:{ unfold generateOutfitRecommendations. rewrite Hb. simpl. split; [constructor|lia]. }
  destruct (generate_valid rnd products req t0 t1 base
              (fun st => Forall (fun p => snd p = composite (score_breakdown (fst p))) (fst st))
              Hb (fun T B F A H => attempt_keeps_scores rnd products req base T B F A H)
              (Forall_nil _)) as [[outs used] [HP [Hout [Hneg _]]]].
  rewrite Hout. simpl in HP, Hneg. split.
  - unfold js_slice0. destruct (Z.leb 0 _); apply Sorted_firstn, Sorted_map;
      (eapply Sorted_Forall_impl; [|apply (Forall_sort_desc snd _ _ HP)|apply sort_desc_sorted]);
      intros [o1 s1] [o2 s2]; simpl; intros -> ->; auto.
  - unfold js_slice0. destruct (Z.leb_spec 0 (effective_num (num_outfits req))) as [H|H].
    + apply firstn_le_length.
    + rewrite (Hneg H). simpl. lia.
Qed.

(** C2 fails as stated: with [num_outfits = 0] the response holds three
    outfits, more than the requested zero. *)
Lemma outfits_ranked_by_composite_counterexample :
  let r := generateOutfitRecommendations rnd3 catalog3
             (mkRequest "TOP_001" None None (Some 0%Z)) 0 1 in
  getProductById catalog3 "TOP_001" <> None /\
  List.length (outfits r) = 3%nat /\
  ~ (List.length (outfits r) <= Z.to_nat 0)%nat.
Proof.
  vm_compute. split; [discriminate|]. split; [reflexivity|lia].
Qed.

(** ** Deduplication *)

Lemma number_from_in n l p : In p (number_from n l) -> In (val p) l.
Proof.
  revert n; induction l as [|x l IH]; intros n H; simpl in *; [contradiction|].
  destruct H as [<-|H]; [now left|right; eapply IH; exact H].
Qed.

Lemma pool_in products c p :
  In p (priced (getProductsByCategory products c)) ->
  In (val p) products /\ category (val p) = c.
Proof.
  unfold priced, getProductsByCategory, catalog.
  intro H. apply filter_In in H as [H _]. apply filter_In in H as [H Hc].
  split; [eapply number_from_in; exact H|]. now apply String.eqb_eq.
Qed.

Lemma NoDup_map_inj {A B} (f : A -> B) l x y :
  NoDup (map f l) -> In x l -> In y l -> f x = f y -> x = y.
Proof.
  induction l as [|a l IH]; simpl; [contradiction|].
  intros Hnd Hx Hy Hf. apply NoDup_cons_iff in Hnd as [Ha Hnd].
  destruct Hx as [<-|Hx], Hy as [<-|Hy]; auto.
  - exfalso. apply Ha. rewrite Hf. now apply in_map.
  - exfalso. apply Ha. rewrite <- Hf. now apply in_map.
Qed.

Lemma pools_disjoint products c1 c2 p q :
  NoDup (map sku_id products) ->
  In p (priced (getProductsByCategory products c1)) ->
  In q (priced (getProductsByCategory products c2)) ->
  sku_id (val p) = sku_id (val q) -> c1 = c2.
Proof.
  intros Hnd Hp Hq Hs.
  apply pool_in in Hp as [Hp Hcp]. apply pool_in in Hq as [Hq Hcq].
  rewrite <- Hcp, <- Hcq. f_equal. eapply NoDup_map_inj; eauto.
Qed.

Lemma sku_find_some pool base p :
  sku_find pool base = Some p -> In p pool /\ sku_id (val p) = sku_id (val base).
Proof.
  unfold sku_find. intro H. split; [eapply find_some; exact H|].
  apply find_some in H as [_ H]. now apply String.eqb_eq.
Qed.

Lemma base_category_cases base T B F :
  (base_category base T B F = "tops" -> exists p, In p T /\ sku_id (val p) = sku_id (val base)) /\
  (base_category base T B F = "bottoms" -> exists p, In p B /\ sku_id (val p) = sku_id (val base)) /\
  (base_category base T B F = "footwear" -> exists p, In p F /\ sku_id (val p) = sku_id (val base)).
Proof.
  unfold base_category.
  destruct (sku_find T base) as [p|] eqn:Ht;
  [|destruct (sku_find B base) as [p|] eqn:Hb;
    [|destruct (sku_find F base) as [p|] eqn:Hf]];
  repeat split; intro H; try discriminate H;
  exists p; now apply sku_find_some.
Qed.

Lemma attempt_keeps_keys rnd products req base T B F A :
  pools products = (T, B, F, A) ->
  forall a st n, keys_inv products st ->
    keys_inv products (fst (attempt_body rnd req base (base_category base T B F) T B F A a st n)).
Proof.
  intros Hpools a [outs used] n [Hmap [Hnd Hfp]]. simpl in Hmap, Hnd, Hfp.
  unfold pools in Hpools. injection Hpools as HT HB HF HA.
  destruct (attempt_body_cases rnd req base (base_category base T B F) T B F A a outs used n)
    as [E|[o (E & Hk & Hm & Hbd & Ht & Hb & Hf & Hacc)]]; rewrite E;
    [split; [|split]; assumption|].
  destruct (base_category_cases base T B F) as [CT [CB CF]].
  unfold keys_inv; simpl. split; [|split].
  - rewrite map_app, Hmap. reflexivity.
  - apply (Permutation_NoDup (Permutation_cons_append used _)).
    constructor; [|exact Hnd].
    intro Hin. assert (Hx : existsb (String.eqb (combinationKey (top o) (bottom o) (footwear o))) used = true)
      by (apply existsb_exists; eexists; split; [exact Hin|apply String.eqb_refl]).
    congruence.
  - apply Forall_app. split; [exact Hfp|]. constructor; [|constructor]. simpl.
    unfold from_pools. rewrite HT, HB, HF.
    split; [|split].
    + destruct Ht as [[Hc ->]|Ht]; [exact (CT Hc)|]. now exists (top o).
    + destruct Hb as [[Hc ->]|Hb]; [exact (CB Hc)|]. now exists (bottom o).
    + destruct Hf as [[Hc ->]|Hf]; [exact (CF Hc)|]. now exists (footwear o).
Qed.

Lemma NoDup_firstn {A} n (l : list A) : NoDup l -> NoDup (firstn n l).
Proof.
  intro H. rewrite <- (firstn_skipn n l) in H. eapply NoDup_app_remove_r. exact H.
Qed.

(** Two outfits drawn from the pools with the same unordered id triple have
    the same ordered triple (the pools do not share ids). *)
Lemma triple_perm_eq products o1 o2 :
  NoDup (map sku_id products) ->
  from_pools products o1 -> from_pools products o2 ->
  Permutation (triple o1) (triple o2) -> triple o1 = triple o2.
Proof.
  intros Hnd [[t1 [Ht1 Et1]] [[b1 [Hb1 Eb1]] [f1 [Hf1 Ef1]]]]
              [[t2 [Ht2 Et2]] [[b2 [Hb2 Eb2]] [f2 [Hf2 Ef2]]]] Hp.
  unfold triple in *.
  assert (D : forall c1 c2 p q, In p (priced (getProductsByCategory products c1)) ->
            In q (priced (getProductsByCategory products c2)) ->
            c1 <> c2 -> sku_id (val p) <> sku_id (val q))
    by (intros c1 c2 p q Hp' Hq' Hc Hs; exact (Hc (pools_disjoint products c1 c2 p q Hnd Hp' Hq' Hs))).
  pose proof (Permutation_in _ Hp (or_introl eq_refl)) as H1.
  pose proof (Permutation_in _ Hp (or_intror (or_introl eq_refl))) as H2.
  pose proof (Permutation_in _ Hp (or_intror (or_intror (or_introl eq_refl)))) as H3.
  simpl in H1, H2, H3.
  destruct H1 as [H1|[H1|[H1|[]]]];
    [|exfalso; refine (D "tops" "bottoms" t1 b2 Ht1 Hb2 _ _); [discriminate|congruence]
     |exfalso; refine (D "tops" "footwear" t1 f2 Ht1 Hf2 _ _); [discriminate|congruence]].
  destruct H2 as [H2|[H2|[H2|[]]]];
    [exfalso; refine (D "bottoms" "tops" b1 t2 Hb1 Ht2 _ _); [discriminate|congruence]|
    |exfalso; refine (D "bottoms" "footwear" b1 f2 Hb1 Hf2 _ _); [discriminate|congruence]].
  destruct H3 as [H3|[H3|[H3|[]]]];
    [exfalso; refine (D "footwear" "tops" f1 t2 Hf1 Ht2 _ _); [discriminate|congruence]
    |exfalso; refine (D "footwear" "bottoms" f1 b2 Hf1 Hb2 _ _); [discriminate|congruence]|].
  congruence.
Qed.

Lemma js_slice0_firstn {A} (l : list A) n : exists k, js_slice0 l n = firstn k l.
Proof. unfold js_slice0. destruct (Z.leb 0 n); eexists; reflexivity. Qed.

Lemma triple_key o1 o2 :
  triple o1 = triple o2 ->
  combinationKey (top o1) (bottom o1) (footwear o1) =
  combinationKey (top o2) (bottom o2) (footwear o2).
Proof.
  unfold triple, combinationKey. intro H. injection H as Ht Hb Hf.
  now rewrite Ht, Hb, Hf.
Qed.

(** C3: since the catalog's ids are unique, no two outfits of a response
    (at distinct positions) have the same unordered triple of top, bottom
    and footwear ids; the accessories play no part in this. *)
Theorem no_duplicate_triples rnd products req t0 t1 i j o1 o2 :
  NoDup (map sku_id products) -> i <> j ->
  nth_error (outfits (generateOutfitRecommendations rnd products req t0 t1)) i = Some o1 ->
  nth_error (outfits (generateOutfitRecommendations rnd products req t0 t1)) j = Some o2 ->
  ~ Permutation (triple o1) (triple o2).
Proof.
  intros Hnd Hij Hi Hj Hp.
  destruct (in_response_valid rnd products req t0 t1 o1)
    as [base Hb]; [eapply nth_error_In; exact Hi|].
  destruct (generate_valid rnd products req t0 t1 base (keys_inv products) Hb
              (attempt_keeps_keys rnd products req base)
              (conj eq_refl (conj (NoDup_nil _) (Forall_nil _))))
    as [[outs used] [[Hmap [Hnd' Hfp]] [Hout _]]].
  simpl in Hmap, Hnd', Hfp. cbn [fst] in Hout. rewrite Hout in Hi, Hj.
  destruct (js_slice0_firstn (map fst (sort_desc snd outs)) (effective_num (num_outfits req)))
    as [k Hk].
  rewrite Hk in Hi, Hj.
  set (okey := fun o => combinationKey (top o) (bottom o) (footwear o)).
  assert (HN : NoDup (map okey (firstn k (map fst (sort_desc snd outs))))).
  { rewrite <- firstn_map. apply NoDup_firstn. rewrite map_map.
    apply (Permutation_NoDup (Permutation_map outfit_key (Permutation_sym (sort_desc_perm snd outs)))).
    rewrite Hmap. exact Hnd'. }
  assert (HF : forall o, In o (firstn k (map fst (sort_desc snd outs))) -> from_pools products o).
  { intros o Ho. apply in_firstn, in_map_iff in Ho as [p [<- Hp']].
    apply (Permutation_in _ (sort_desc_perm snd outs)) in Hp'.
    rewrite Forall_forall in Hfp. exact (Hfp p Hp'). }
  pose proof (triple_perm_eq products o1 o2 Hnd
                (HF o1 (nth_error_In _ _ Hi)) (HF o2 (nth_error_In _ _ Hj)) Hp) as Ht.
  apply Hij. apply (proj1 (List.NoDup_nth_error _) HN).
  - rewrite length_map. apply nth_error_Some. congruence.
  - rewrite !nth_error_map, Hi, Hj. simpl. f_equal. exact (triple_key o1 o2 Ht).
Qed.

(** An instance: the first two outfits of a three-outfit response. *)
Lemma no_duplicate_triples_witness :
  let r := generateOutfitRecommendations rnd3 catalog3
             (mkRequest "TOP_001" None None (Some 0%Z)) 0 1 in
  match nth_error (outfits r) 0, nth_error (outfits r) 1 with
  | Some o1, Some o2 => ~ Permutation (triple o1) (triple o2)
  | _, _ => False
  end.
Proof.
  intro r.
  destruct (nth_error (outfits r) 0) as [o1|] eqn:E1;
    [|vm_compute in E1; discriminate E1].
  destruct (nth_error (outfits r) 1) as [o2|] eqn:E2;
    [|vm_compute in E2; discriminate E2].
  apply (no_duplicate_triples rnd3 catalog3
           (mkRequest "TOP_001" None None (Some 0%Z)) 0 1 0 1 o1 o2).
  - vm_compute. repeat constructor; simpl; intro H;
      repeat destruct H as [H|H]; try discriminate H; exact H.
  - discriminate.
  - exact E1.
  - exact E2.
Defined.

(** ** Accessories *)

Lemma accessory_bounds rnd a A sel pref n :
  let k := Z.to_nat (1 + Z.modulo a 2) in
  (List.length (fst (add_accessories rnd k A sel [] pref n)) <= 2)%nat /\
  (random_in_range rnd -> A <> [] ->
   (1 <= List.length (fst (add_accessories rnd k A sel [] pref n)))%nat).
Proof.
  intro k. pose proof (Z.mod_pos_bound a 2 ltac:(lia)) as Hm.
  assert (Hk : (1 <= k <= 2)%nat) by (subst k; lia).
  split.
  - pose proof (add_accessories_length rnd k A sel [] pref n). simpl in *. lia.
  - intros Hr HA. apply add_accessories_nonempty; [exact Hr|exact HA|lia].
Qed.

Lemma add_accessories_no_pool rnd k sel pref n :
  fst (add_accessories rnd k [] sel [] pref n) = [].
Proof.
  revert n. induction k as [|k IH]; intro n; [reflexivity|].
  simpl. exact (IH n).
Qed.

(** ** Non-empty responses *)

Lemma number_from_ref k l x : In x (number_from k l) -> (k <= ref x)%nat.
Proof.
  revert k; induction l as [|p l IH]; intros k H; simpl in H; [contradiction|].
  destruct H as [<-|H]; [simpl; lia|]. specialize (IH (S k) H). lia.
Qed.

Lemma number_from_ref_inj k l x y :
  In x (number_from k l) -> In y (number_from k l) -> ref x = ref y -> x = y.
Proof.
  revert k; induction l as [|p l IH]; intros k Hx Hy E; simpl in Hx, Hy; [contradiction|].
  destruct Hx as [<-|Hx], Hy as [<-|Hy]; auto.
  - apply number_from_ref in Hy. simpl in E. lia.
  - apply number_from_ref in Hx. simpl in E. lia.
  - exact (IH (S k) Hx Hy E).
Qed.

Lemma pool_catalog products c q :
  In q (priced (getProductsByCategory products c)) -> In q (catalog products).
Proof.
  unfold priced, getProductsByCategory. intro H.
  apply filter_In in H as [H _]. apply filter_In in H as [H _]. exact H.
Qed.

Lemma includes_avoid products c sel q :
  NoDup (map sku_id products) ->
  In q (priced (getProductsByCategory products c)) ->
  Forall (avoid_ok products c) sel -> includes sel q = false.
Proof.
  intros Hnd Hq Hs. unfold includes. apply Bool.not_true_is_false. intro H.
  apply existsb_exists in H as [s [Hin Href]]. apply Nat.eqb_eq in Href.
  rewrite Forall_forall in Hs. destruct (Hs s Hin) as [Hcat [c' [p [Hc' [Hp Hsku]]]]].
  assert (s = q) by (eapply number_from_ref_inj; [exact Hcat|exact (pool_catalog _ _ _ Hq)|exact Href]).
  subst s. exact (Hc' (pools_disjoint products c' c p q Hnd Hp Hq Hsku)).
Qed.

Lemma avoid_pool products c c' x :
  In x (priced (getProductsByCategory products c')) -> c' <> c -> avoid_ok products c x.
Proof.
  intros Hx Hc. split; [exact (pool_catalog _ _ _ Hx)|]. now exists c', x.
Qed.

Lemma avoid_base products c c' base p :
  In base (catalog products) ->
  In p (priced (getProductsByCategory products c')) ->
  sku_id (val p) = sku_id (val base) -> c' <> c -> avoid_ok products c base.
Proof. intros Hb Hp Hs Hc. split; [exact Hb|]. now exists c', p. Qed.

Lemma nonempty_in {A} (l : list A) : l <> [] -> exists x, In x l.
Proof. destruct l as [|x l]; [congruence|]. intros _. exists x. now left. Qed.

Lemma fill_slot_some rnd slot pool sel pref n :
  random_in_range rnd ->
  match slot with Some _ => True | None => exists q, In q pool /\ includes sel q = false end ->
  exists x n', fill_slot rnd slot pool sel pref n =
    (Some x, match slot with Some _ => sel | None => (sel ++ [x])%list end, n') /\
    match slot with Some y => x = y | None => In x pool end.
Proof.
  intros Hr Hc. destruct slot as [y|].
  - exists y, n. split; reflexivity.
  - destruct Hc as [q [Hq Hi]].
    assert (Hne : filter (fun t => negb (includes sel t)) pool <> []).
    { intro E. assert (Hin : In q (filter (fun t => negb (includes sel t)) pool))
        by (apply filter_In; rewrite Hi; auto).
      rewrite E in Hin. exact Hin. }
    destruct (selectBestItem_some rnd _ sel pref n Hne (Hr n)) as [x Hx].
    pose proof (selectBestItem_in rnd _ sel pref n x Hx) as Hin.
    apply filter_In in Hin as [Hin _].
    exists x. unfold fill_slot, bind, ret.
    destruct (selectBestItem rnd (filter (fun t => negb (includes sel t)) pool) sel pref n)
      as [r n'] eqn:E.
    simpl in Hx. subst r. exists n'. split; [reflexivity|exact Hin].
Qed.

Ltac fill_some Hr Hnd ET EB EF :=
  match goal with
  | |- context [fill_slot ?r ?s ?p ?l ?pr ?k] =>
    let C := fresh "C" in
    assert (C : match s with Some _ => True | None => exists q, In q p /\ includes l q = false end);
    [ cbv beta iota;
      first
        [ exact I
        | let q := fresh "q" in let Hq := fresh "Hq" in
          destruct (nonempty_in p ltac:(assumption)) as [q Hq];
          exists q; split; [exact Hq|];
          first [rewrite <- ET in Hq | rewrite <- EB in Hq | rewrite <- EF in Hq];
          apply (includes_avoid _ _ _ q Hnd Hq);
          repeat (apply Forall_cons); [..|apply Forall_nil];
          match goal with
          | H : In ?s (priced (getProductsByCategory _ ?c')) |- avoid_ok _ _ ?s =>
              apply (avoid_pool _ _ c' s H); discriminate
          | Hb : In ?s (catalog _), H : In ?p (priced (getProductsByCategory _ ?c')),
            Hs : sku_id (val ?p) = sku_id (val ?s) |- avoid_ok _ _ ?s =>
              apply (avoid_base _ _ c' s p Hb H Hs); discriminate
          end ]
    | let x := fresh "x" in let n' := fresh "n" in
      let E := fresh "E" in let Hx := fresh "Hx" in
      destruct (fill_slot_some r s p l pr k Hr C) as [x [n' [E Hx]]]; clear C;
      rewrite E; cbv beta iota zeta delta [fst snd] in Hx |- *;
      first [ subst x
            | first [rewrite <- ET in Hx | rewrite <- EB in Hx | rewrite <- EF in Hx] ] ]
  end.

(** With non-empty pools and unique ids, the first attempt always yields
    an outfit. *)
Lemma attempt_first rnd products req base T B F A a outs n :
  random_in_range rnd -> NoDup (map sku_id products) ->
  getProductById products (base_product_id req) = Some base ->
  pools products = (T, B, F, A) -> T <> [] -> B <> [] -> F <> [] ->
  List.length (fst (fst (attempt_body rnd req base (base_category base T B F)
                           T B F A a (outs, []) n))) = S (List.length outs).
Proof.
  intros Hr Hnd Hb Hp HT HB HF.
  unfold pools in Hp. injection Hp as ET EB EF EA.
  assert (Hbase : In base (catalog products))
    by (unfold getProductById in Hb; apply find_some in Hb; apply Hb).
  destruct (base_category_cases base T B F) as [CT [CB CF]].
  unfold attempt_body, bind.
  destruct (String.eqb_spec (base_category base T B F) "tops") as [Ht|Ht];
  [destruct (CT Ht) as [p0 [Hp0 Hs0]]; rewrite <- ET in Hp0
  |destruct (String.eqb_spec (base_category base T B F) "bottoms") as [Hb'|Hb'];
    [destruct (CB Hb') as [p0 [Hp0 Hs0]]; rewrite <- EB in Hp0
    |destruct (String.eqb_spec (base_category base T B F) "footwear") as [Hf|Hf];
      [destruct (CF Hf) as [p0 [Hp0 Hs0]]; rewrite <- EF in Hp0|]]];
  cbv beta iota zeta;
  do 3 fill_some Hr Hnd ET EB EF;
  cbv beta iota zeta delta [existsb];
  match goal with
  | |- context [add_accessories ?r ?k ?a ?s ?c ?p ?m] =>
    destruct (add_accessories r k a s c p m) as [accs n4]
  end;
  cbv beta iota zeta delta [generateOutfitId random ret fst snd];
  rewrite length_app; simpl; lia.
Qed.

Lemma attempt_keeps_nonempty rnd req base cat T B F A a st n :
  fst st <> [] -> fst (fst (attempt_body rnd req base cat T B F A a st n)) <> [].
Proof.
  destruct st as [outs used]. intro H.
  destruct (attempt_body_cases rnd req base cat T B F A a outs used n)
    as [E|[o [E _]]]; rewrite E; simpl; [exact H|].
  intro E'. apply app_eq_nil in E' as [_ E']. discriminate E'.
Qed.

Lemma gen_loop_first body f N n :
  (0 < N)%Z ->
  (forall a st n, fst st <> [] -> fst (fst (body a st n)) <> []) ->
  (forall n, fst (fst (body 0%Z ([], []) n)) <> []) ->
  fst (fst (gen_loop body (S f) N 0 ([], []) n)) <> [].
Proof.
  intros HN Hmono H0. simpl.
  replace (Z.ltb 0 (N * 5)) with true by (symmetry; apply Z.ltb_lt; lia).
  replace (Z.ltb 0 N) with true by (symmetry; apply Z.ltb_lt; lia).
  simpl. unfold bind. specialize (H0 n).
  destruct (body 0%Z ([], []) n) as [st' n'] eqn:E. simpl in H0.
  exact (gen_loop_inv (fun st => fst st <> []) body Hmono f N 1 st' n' H0).
Qed.

Lemma js_slice0_nonempty {A} (l : list A) n :
  (0 < n)%Z -> l <> [] -> js_slice0 l n <> [].
Proof.
  intros Hn Hl. unfold js_slice0.
  replace (Z.leb 0 n) with true by (symmetry; apply Z.leb_le; lia).
  destruct l as [|x l]; [congruence|].
  replace (Z.to_nat n) with (S (Z.to_nat n - 1)) by lia. discriminate.
Qed.

Lemma length_S_nonempty {A} (l : list A) k : List.length l = S k -> l <> [].
Proof. intros H E. subst l. discriminate H. Qed.

(** With unique ids, [Math.random()] in [[0, 1)], a resolvable base and
    non-empty priced pools of tops, bottoms and footwear, a request for a
    positive number of outfits gets at least one. *)
Lemma response_nonempty rnd products req t0 t1 :
  random_in_range rnd -> NoDup (map sku_id products) ->
  getProductById products (base_product_id req) <> None ->
  (0 < effective_num (num_outfits req))%Z ->
  priced (getProductsByCategory products "tops") <> [] ->
  priced (getProductsByCategory products "bottoms") <> [] ->
  priced (getProductsByCategory products "footwear") <> [] ->
  outfits (generateOutfitRecommendations rnd products req t0 t1) <> [].
Proof.
  intros Hr Hnd Hb HN HT HB HF.
  destruct (getProductById products (base_product_id req)) as [base|] eqn:Hb'; [|congruence].
  unfold generateOutfitRecommendations. rewrite Hb'. cbv zeta.
  match goal with
  | |- context [gen_loop ?body ?fuel ?N 0%Z ([], []) 0%nat] =>
    assert (NE : fst (fst (gen_loop body fuel N 0%Z ([], []) 0%nat)) <> []);
    [ replace fuel with (S (Z.to_nat (N * 5) - 1)) by lia;
      apply gen_loop_first;
      [ exact HN
      | intros a st m; apply attempt_keeps_nonempty
      | intro m;
        exact (length_S_nonempty _ _
                 (attempt_first rnd products req base _ _ _ _ 0%Z [] m
                    Hr Hnd Hb' eq_refl HT HB HF)) ]
    | destruct (gen_loop body fuel N 0%Z ([], []) 0%nat) as [[outs used] m] ]
  end.
  simpl in NE. cbn [outfits]. apply js_slice0_nonempty; [exact HN|].
  intro E. apply (f_equal (@List.length _)) in E.
  rewrite length_map, (Permutation_length (sort_desc_perm _ _)) in E.
  destruct outs; [congruence|discriminate E].
Qed.

(** C7 (as amended): every returned outfit has one top, one bottom and one
    footwear item (fields of the record) and at most two accessories; it
    has at least one when [Math.random()] stays in [[0, 1)] and the priced
    accessory pool is not empty, and none when that pool is empty. *)
Theorem accessories_at_most_two rnd products req t0 t1 o :
  In o (outfits (generateOutfitRecommendations rnd products req t0 t1)) ->
  (List.length (accessories o) <= 2)%nat /\
  (random_in_range rnd ->
   priced (getProductsByCategory products "accessories") <> [] ->
   (1 <= List.length (accessories o))%nat) /\
  (priced (getProductsByCategory products "accessories") = [] -> accessories o = []).
Proof.
  intro Hin. destruct (in_response_valid _ _ _ _ _ _ Hin) as [base Hb].
  set (Po := fun o (_ : Q) =>
    (List.length (accessories o) <= 2)%nat /\
    (random_in_range rnd ->
     priced (getProductsByCategory products "accessories") <> [] ->
     (1 <= List.length (accessories o))%nat) /\
    (priced (getProductsByCategory products "accessories") = [] -> accessories o = [])).
  destruct (in_response rnd products req t0 t1 base Po o Hb) as [sc H]; [|exact Hin|exact H].
  intros T B F A Hp. unfold pools in Hp. injection Hp as _ _ _ EA.
  apply (attempt_forall _ _ _ _ _ _ _ _ Po).
  intros attempt o' _ _ _ _ _ [sel [n' Hacc]]. unfold Po. rewrite EA, Hacc.
  split; [apply accessory_bounds|]. split; [apply accessory_bounds|].
  intro E. rewrite E. apply add_accessories_no_pool.
Qed.

Lemma accessories_at_most_two_witness :
  exists o,
    In o (outfits (generateOutfitRecommendations (fun _ => 0) (catalog8 None) request8 0 1)) /\
    (List.length (accessories o) <= 2)%nat /\
    (random_in_range (fun _ => 0) ->
     priced (getProductsByCategory (catalog8 None) "accessories") <> [] ->
     (1 <= List.length (accessories o))%nat) /\
    (priced (getProductsByCategory (catalog8 None) "accessories") = [] -> accessories o = []).
Proof.
  destruct (outfits (generateOutfitRecommendations (fun _ => 0) (catalog8 None) request8 0 1))
    as [|o l] eqn:E; [vm_compute in E; discriminate|].
  exists o. split; [left; reflexivity|].
  apply (accessories_at_most_two (fun _ => 0) (catalog8 None) request8 0 1 o).
  rewrite E. left; reflexivity.
Defined.

(** C7 fails as stated: over a catalog with no accessories the returned
    outfit has none. *)
Lemma accessories_at_most_two_counterexample :
  exists o,
    In o (outfits (generateOutfitRecommendations (fun _ => 0) catalog_noacc request8 0 1)) /\
    accessories o = [].
Proof. vm_compute. eexists. split; [left; reflexivity|reflexivity]. Qed.

(** C9 (as amended): the white-navy entry of the colour matrix is 0.95 and
    the white-white entry 0.6; in the scenario (white top, navy bottom,
    white shoe, one accessory of any colour [c]) the single outfit's
    [color_harmony] is the mean of the six pairwise scores, accessory
    pairs included. *)
Theorem white_navy_harmony_scenario :
  color_score white navy = 95 # 100 /\ color_score white white = 6 # 10 /\
  forall c, exists o,
    outfits (generateOutfitRecommendations (fun _ => 0) (catalog8 (Some c)) request8 0 1) = [o] /\
    color_harmony (score_breakdown o) ==
      (color_score white navy + color_score white white + color_score white c +
       color_score navy white + color_score navy c + color_score white c) / 6.
Proof.
  split; [reflexivity|]. split; [reflexivity|].
  intro c; destruct c; vm_compute; eexists; (split; [reflexivity|reflexivity]).
Qed.

(** C9 fails as stated: the white-navy entry does not begin with 0.85. *)
Lemma white_navy_harmony_scenario_counterexample :
  ~ (85 # 100 <= color_score white navy < 86 # 100).
Proof. vm_compute. intros [_ H]. discriminate H. Qed.

(** C10 (as amended): [num_outfits = 0] behaves exactly as [num_outfits = 3]
    (the falsy 0 is replaced by the default); the response is then not
    empty when ids are unique, [Math.random()] stays in [[0, 1)], the base
    resolves and the priced pools of tops, bottoms and footwear are not
    empty. *)
Theorem zero_outfits_means_default rnd products req t0 t1 :
  num_outfits req = Some 0%Z ->
  generateOutfitRecommendations rnd products req t0 t1 =
    generateOutfitRecommendations rnd products
      (mkRequest (base_product_id req) (preferred_style req) (req_season req) (Some 3%Z)) t0 t1 /\
  (random_in_range rnd -> NoDup (map sku_id products) ->
   getProductById products (base_product_id req) <> None ->
   priced (getProductsByCategory products "tops") <> [] ->
   priced (getProductsByCategory products "bottoms") <> [] ->
   priced (getProductsByCategory products "footwear") <> [] ->
   outfits (generateOutfitRecommendations rnd products req t0 t1) <> []).
Proof.
  intro H0. split.
  - unfold generateOutfitRecommendations. rewrite H0. reflexivity.
  - intros Hr Hnd Hb HT HB HF.
    apply response_nonempty; try assumption. rewrite H0. reflexivity.
Qed.

Lemma zero_outfits_means_default_witness :
  let req := mkRequest "TOP_001" None None (Some 0%Z) in
  generateOutfitRecommendations (fun _ => 0) catalog3 req 0 1 =
    generateOutfitRecommendations (fun _ => 0) catalog3
      (mkRequest (base_product_id req) (preferred_style req) (req_season req) (Some 3%Z)) 0 1 /\
  (random_in_range (fun _ => 0) -> NoDup (map sku_id catalog3) ->
   getProductById catalog3 (base_product_id req) <> None ->
   priced (getProductsByCategory catalog3 "tops") <> [] ->
   priced (getProductsByCategory catalog3 "bottoms") <> [] ->
   priced (getProductsByCategory catalog3 "footwear") <> [] ->
   outfits (generateOutfitRecommendations (fun _ => 0) catalog3 req 0 1) <> []).
Proof.
  intro req. apply (zero_outfits_means_default (fun _ => 0) catalog3 req 0 1).
  reflexivity.
Defined.

(** C10 fails as stated: with [num_outfits = 0] and a resolvable base, a
    catalog without bottoms gives no outfit. *)
Lemma zero_outfits_means_default_counterexample :
  let r := generateOutfitRecommendations (fun _ => 0) catalog_nobottom
             (mkRequest "TOP_001" None None (Some 0%Z)) 0 1 in
  getProductById catalog_nobottom "TOP_001" <> None /\ outfits r = [].
Proof. vm_compute. split; [discriminate|reflexivity]. Qed.

(** C6 does not hold of the code: a base product found in none of the
    tops, bottoms and footwear pools (here the accessory ACC_003) is not
    placed in the outfit; the only outfit holds the top, the bottom, the
    shoe and the other accessory ACC_002. *)
Lemma accessory_base_not_placed :
  let r := generateOutfitRecommendations (fun _ => 0) catalog_acc
             (mkRequest "ACC_003" None None (Some 1%Z)) 0 1 in
  base_product r <> None /\
  map (fun x => sku_id (val x)) (flat_map outfit_items (outfits r)) =
    ["TOP_001"; "BOTTOM_001"; "SHOE_001"; "ACC_002"].
Proof. vm_compute. split; [discriminate|reflexivity]. Qed.

(** ** Further properties of the engine *)

(** One attempt, with the exact assignment of the three mandatory slots,
    the total price and the reasoning of the new outfit. *)
Lemma attempt_body_detail rnd req base cat T B F A attempt outs used n :
  let r := fst (attempt_body rnd req base cat T B F A attempt (outs, used) n) in
  r = (outs, used) \/
  exists o,
    r = ((outs ++ [(o, composite (score_breakdown o))])%list,
         (used ++ [combinationKey (top o) (bottom o) (footwear o)])%list) /\
    score_breakdown o = breakdown_of (map val (outfit_items o)) (req_season req) /\
    total_price o = fold_left Z.add (map lowest_price (map val (outfit_items o))) 0%Z /\
    reasoning o = generateReasoning (score_breakdown o) (map val (outfit_items o)) (total_price o) /\
    (cat = "tops" -> top o = base) /\ (cat <> "tops" -> In (top o) T) /\
    (cat = "bottoms" -> bottom o = base) /\ (cat <> "bottoms" -> In (bottom o) B) /\
    (cat = "footwear" -> footwear o = base) /\ (cat <> "footwear" -> In (footwear o) F) /\
    (exists sel n', accessories o =
       fst (add_accessories rnd (Z.to_nat (1 + Z.modulo attempt 2)) A sel []
              (preferred_style req) n')).
Proof.
  intro r. subst r. unfold attempt_body, bind.
  destruct (String.eqb_spec cat "tops") as [Ht|Ht];
  [|destruct (String.eqb_spec cat "bottoms") as [Hb|Hb];
    [|destruct (String.eqb_spec cat "footwear") as [Hf|Hf]]];
  cbv beta iota zeta;
  do 3 fill_step; try (left; reflexivity);
  match goal with
  | |- context [existsb (String.eqb ?k) used] =>
    destruct (existsb (String.eqb k) used) eqn:Hk; [left; reflexivity|]
  end;
  cbv beta iota zeta delta [generateOutfitId random ret fst snd];
  match goal with
  | |- context [add_accessories ?r ?k ?a ?s ?c ?p ?m] =>
    destruct (add_accessories r k a s c p m) as [accs n4] eqn:Eacc
  end;
  right;
  match goal with
  | |- exists o, ((_ ++ [(?x, _)])%list, _) = _ /\ _ => exists x
  end;
  (split; [reflexivity|]);
  cbn [top bottom footwear accessories match_score score_breakdown total_price reasoning];
  (split; [reflexivity|]); (split; [reflexivity|]); (split; [reflexivity|]).
  all: repeat match goal with
    | E : fill_slot _ _ _ _ _ _ = (Some _, _, _) |- _ =>
        apply fill_slot_from in E;
        let H := fresh "Hs" in let H0 := fresh "Hs" in
        destruct E as [H|[H0 H]]; [try discriminate H; injection H as H | try discriminate H0]
    end.
  all: repeat split; try (intro; first [assumption | congruence]).
  all: match goal with
    | Eacc : add_accessories _ _ _ ?s _ _ ?m = _ |- exists _ _, _ =>
        exists s, m; rewrite Eacc; reflexivity
    end.
Qed.

Lemma attempt_forall_detail rnd req base cat T B F A (Po : Outfit -> Q -> Prop) :
  (forall attempt o,
     score_breakdown o = breakdown_of (map val (outfit_items o)) (req_season req) ->
     total_price o = fold_left Z.add (map lowest_price (map val (outfit_items o))) 0%Z ->
     reasoning o = generateReasoning (score_breakdown o) (map val (outfit_items o)) (total_price o) ->
     (cat = "tops" -> top o = base) -> (cat <> "tops" -> In (top o) T) ->
     (cat = "bottoms" -> bottom o = base) -> (cat <> "bottoms" -> In (bottom o) B) ->
     (cat = "footwear" -> footwear o = base) -> (cat <> "footwear" -> In (footwear o) F) ->
     (exists sel n', accessories o =
        fst (add_accessories rnd (Z.to_nat (1 + Z.modulo attempt 2)) A sel []
               (preferred_style req) n')) ->
     Po o (composite (score_breakdown o))) ->
  forall a st n, Forall (fun p => Po (fst p) (snd p)) (fst st) ->
    Forall (fun p => Po (fst p) (snd p))
      (fst (fst (attempt_body rnd req base cat T B F A a st n))).
Proof.
  intros HQ a [outs used] n Hst.
  destruct (attempt_body_detail rnd req base cat T B F A a outs used n)
    as [E|[o (E & H1 & H2 & H3 & H4 & H5 & H6 & H7 & H8 & H9 & H10)]]; rewrite E; [exact Hst|].
  simpl. apply Forall_app. split; [exact Hst|].
  constructor; [|constructor]. simpl. now apply (HQ a).
Qed.

Lemma includes_false_notin l a :
  includes l a = false -> ~ In (ref a) (map ref l).
Proof.
  unfold includes. intros H Hin. apply in_map_iff in Hin as [o [Ho Hin]].
  assert (existsb (fun o => Nat.eqb (ref o) (ref a)) l = true)
    by (apply existsb_exists; exists o; split; [exact Hin|apply Nat.eqb_eq; exact Ho]).
  congruence.
Qed.

Lemma add_accessories_spec rnd k A sel acc pref n :
  NoDup (map ref acc) -> (forall x, In x acc -> In x A) ->
  NoDup (map ref (fst (add_accessories rnd k A sel acc pref n))) /\
  (forall x, In x (fst (add_accessories rnd k A sel acc pref n)) -> In x A).
Proof.
  revert acc n; induction k as [|k IH]; intros acc n Hnd Hin; simpl; [split; assumption|].
  unfold bind.
  destruct (selectBestItem rnd (filter (fun x => negb (includes acc x)) A) (sel ++ acc)%list pref n)
    as [[a|] n'] eqn:E; apply IH; try assumption.
  - assert (Ha : In a (filter (fun x => negb (includes acc x)) A))
      by (eapply selectBestItem_in; rewrite E; reflexivity).
    apply filter_In in Ha as [Ha Hi]. apply negb_true_iff in Hi.
    rewrite map_app. simpl.
    apply (Permutation_NoDup (Permutation_cons_append _ _)).
    constructor; [exact (includes_false_notin acc a Hi)|exact Hnd].
  - assert (Ha : In a (filter (fun x => negb (includes acc x)) A))
      by (eapply selectBestItem_in; rewrite E; reflexivity).
    apply filter_In in Ha as [Ha _].
    intros x Hx. apply in_app_or in Hx as [Hx|[<-|[]]]; auto.
Qed.

Lemma base_in_products products req base :
  getProductById products (base_product_id req) = Some base -> In (val base) products.
Proof.
  unfold getProductById, catalog. intro H. apply find_some in H as [H _].
  exact (number_from_in _ _ _ H).
Qed.

(** With unique ids, a pool member with the id of the base product is the
    base product's record. *)
Lemma base_val products req base c p :
  NoDup (map sku_id products) ->
  getProductById products (base_product_id req) = Some base ->
  In p (priced (getProductsByCategory products c)) ->
  sku_id (val p) = sku_id (val base) -> val p = val base.
Proof.
  intros Hnd Hb Hp Hs. eapply NoDup_map_inj; [exact Hnd| |exact (base_in_products _ _ _ Hb)|exact Hs].
  exact (proj1 (pool_in _ _ _ Hp)).
Qed.

Lemma priced_pos products c p :
  In p (priced (getProductsByCategory products c)) -> (0 < lowest_price (val p))%Z.
Proof.
  unfold priced. intro H. apply filter_In in H as [_ H]. now apply Z.ltb_lt.
Qed.

Lemma in_response_detail rnd products req t0 t1 base (Po : Outfit -> Q -> Prop) o :
  getProductById products (base_product_id req) = Some base ->
  (forall T B F A, pools products = (T, B, F, A) ->
   forall attempt o,
     score_breakdown o = breakdown_of (map val (outfit_items o)) (req_season req) ->
     total_price o = fold_left Z.add (map lowest_price (map val (outfit_items o))) 0%Z ->
     reasoning o = generateReasoning (score_breakdown o) (map val (outfit_items o)) (total_price o) ->
     let cat := base_category base T B F in
     (cat = "tops" -> top o = base) -> (cat <> "tops" -> In (top o) T) ->
     (cat = "bottoms" -> bottom o = base) -> (cat <> "bottoms" -> In (bottom o) B) ->
     (cat = "footwear" -> footwear o = base) -> (cat <> "footwear" -> In (footwear o) F) ->
     (exists sel n', accessories o =
        fst (add_accessories rnd (Z.to_nat (1 + Z.modulo attempt 2)) A sel []
               (preferred_style req) n')) ->
     Po o (composite (score_breakdown o))) ->
  In o (outfits (generateOutfitRecommendations rnd products req t0 t1)) ->
  exists sc, Po o sc.
Proof.
  intros Hb HP Hin. apply (in_response rnd products req t0 t1 base Po o Hb); [|exact Hin].
  intros T B F A Hp. apply attempt_forall_detail. exact (HP T B F A Hp).
Qed.

Lemma fold_add_pos l acc :
  (0 <= acc)%Z -> Forall (fun x => 0 < x)%Z l -> l <> [] -> (0 < fold_left Z.add l acc)%Z.
Proof.
  revert acc; induction l as [|x l IH]; intros acc Hacc Hl Hne; [congruence|].
  inversion Hl as [|? ? Hx Hl']; subst. simpl.
  destruct l as [|y l]; [simpl; lia|]. apply IH; [lia|exact Hl'|discriminate].
Qed.

(** The base product's pools: its own category's pool contains it, the
    other pools hold no item with its id. *)
Lemma base_in_own_pool products req base :
  getProductById products (base_product_id req) = Some base ->
  (0 < lowest_price (val base))%Z ->
  In base (priced (getProductsByCategory products (category (val base)))).
Proof.
  intros Hb Hp. unfold priced, getProductsByCategory.
  apply filter_In. split; [|now apply Z.ltb_lt].
  apply filter_In. split; [|apply String.eqb_refl].
  unfold getProductById in Hb. apply find_some in Hb. apply Hb.
Qed.

Lemma sku_find_own pool base : In base pool -> sku_find pool base <> None.
Proof.
  unfold sku_find. intros Hin E. eapply find_none in E; [|exact Hin].
  rewrite String.eqb_refl in E. discriminate.
Qed.

Lemma sku_find_other products req base c :
  NoDup (map sku_id products) ->
  getProductById products (base_product_id req) = Some base ->
  category (val base) <> c ->
  sku_find (priced (getProductsByCategory products c)) base = None.
Proof.
  intros Hnd Hb Hc. destruct (sku_find _ base) as [p|] eqn:E; [|reflexivity].
  exfalso. apply sku_find_some in E as [Hp Hs].
  pose proof (base_val products req base c p Hnd Hb Hp Hs) as Hv.
  apply pool_in in Hp as [_ Hpc]. apply Hc. rewrite <- Hv. exact Hpc.
Qed.

(** With unique ids, a priced base product whose category is tops, bottoms
    or footwear is classified by that category. *)
Lemma base_category_own products req base :
  NoDup (map sku_id products) ->
  getProductById products (base_product_id req) = Some base ->
  (0 < lowest_price (val base))%Z ->
  In (category (val base)) ["tops"; "bottoms"; "footwear"] ->
  base_category base (priced (getProductsByCategory products "tops"))
    (priced (getProductsByCategory products "bottoms"))
    (priced (getProductsByCategory products "footwear")) = category (val base).
Proof.
  intros Hnd Hb Hp Hc. pose proof (base_in_own_pool products req base Hb Hp) as Hown.
  unfold base_category.
  destruct Hc as [Hc|[Hc|[Hc|[]]]]; rewrite <- Hc in *.
  - destruct (sku_find _ base) eqn:E; [reflexivity|exfalso; exact (sku_find_own _ _ Hown E)].
    all: fail.
  - rewrite (sku_find_other products req base "tops"); [|exact Hnd|exact Hb|rewrite <- Hc; discriminate].
    destruct (sku_find _ base) eqn:E; [reflexivity|exfalso; exact (sku_find_own _ _ Hown E)].
  - rewrite (sku_find_other products req base "tops"); [|exact Hnd|exact Hb|rewrite <- Hc; discriminate].
    rewrite (sku_find_other products req base "bottoms"); [|exact Hnd|exact Hb|rewrite <- Hc; discriminate].
    destruct (sku_find _ base) eqn:E; [reflexivity|exfalso; exact (sku_find_own _ _ Hown E)].
Qed.

(** With unique ids, every returned outfit's top is a product of category
    tops, its bottom of category bottoms, its footwear of category footwear
    and each accessory of category accessories. *)
Theorem outfit_slot_categories rnd products req t0 t1 o :
  NoDup (map sku_id products) ->
  In o (outfits (generateOutfitRecommendations rnd products req t0 t1)) ->
  category (val (top o)) = "tops" /\ category (val (bottom o)) = "bottoms" /\
  category (val (footwear o)) = "footwear" /\
  Forall (fun a => category (val a) = "accessories") (accessories o).
Proof.
  intros Hnd Hin. destruct (in_response_valid _ _ _ _ _ _ Hin) as [base Hb].
  set (Po := fun o (_ : Q) =>
    category (val (top o)) = "tops" /\ category (val (bottom o)) = "bottoms" /\
    category (val (footwear o)) = "footwear" /\
    Forall (fun a => category (val a) = "accessories") (accessories o)).
  destruct (in_response_detail rnd products req t0 t1 base Po o Hb) as [sc H]; [|exact Hin|exact H].
  intros T B F A Hp attempt o' _ _ _ cat Ht1 Ht2 Hb1 Hb2 Hf1 Hf2 [sel [n' Hacc]].
  pose proof Hp as Hp'. unfold pools in Hp'. injection Hp' as ET EB EF EA.
  destruct (base_category_cases base T B F) as [CT [CB CF]].
  (* an item of slot [c] is the base (classified [c]) or a member of pool [c] *)
  assert (Slot : forall c P x, priced (getProductsByCategory products c) = P ->
            (base_category base T B F = c -> exists p, In p P /\ sku_id (val p) = sku_id (val base)) ->
            (cat = c -> x = base) -> (cat <> c -> In x P) -> category (val x) = c).
  { intros c P x EP Cc H1 H2. subst cat. rewrite <- EP in *.
    destruct (String.eqb_spec (base_category base T B F) c) as [Hc|Hc].
    - rewrite (H1 Hc). destruct (Cc Hc) as [p [Hp0 Hs]].
      rewrite <- (base_val products req base c p Hnd Hb Hp0 Hs).
      exact (proj2 (pool_in _ _ _ Hp0)).
    - exact (proj2 (pool_in _ _ _ (H2 Hc))). }
  unfold Po. split; [exact (Slot _ _ _ ET CT Ht1 Ht2)|].
  split; [exact (Slot _ _ _ EB CB Hb1 Hb2)|].
  split; [exact (Slot _ _ _ EF CF Hf1 Hf2)|].
  apply Forall_forall. intros a Ha. rewrite Hacc in Ha.
  apply (add_accessories_spec rnd _ A sel [] _ n') in Ha;
    [|constructor|intros x []].
  rewrite <- EA in Ha. exact (proj2 (pool_in _ _ _ Ha)).
Qed.

Lemma outfit_slot_categories_witness :
  exists o,
    In o (outfits (generateOutfitRecommendations rnd3 catalog3
                     (mkRequest "TOP_001" None None (Some 0%Z)) 0 1)) /\
    category (val (top o)) = "tops" /\ category (val (bottom o)) = "bottoms" /\
    category (val (footwear o)) = "footwear" /\
    Forall (fun a => category (val a) = "accessories") (accessories o).
Proof.
  destruct (outfits (generateOutfitRecommendations rnd3 catalog3
                       (mkRequest "TOP_001" None None (Some 0%Z)) 0 1))
    as [|o l] eqn:E; [vm_compute in E; discriminate|].
  exists o. split; [left; reflexivity|].
  apply (outfit_slot_categories rnd3 catalog3 (mkRequest "TOP_001" None None (Some 0%Z)) 0 1 o).
  - vm_compute. repeat constructor; simpl; intro H;
      repeat destruct H as [H|H]; try discriminate H; exact H.
  - rewrite E. left; reflexivity.
Defined.

(** With unique ids, every item of every returned outfit has a positive
    price, and [total_price] is the sum of the item prices, hence positive. *)
Theorem outfit_prices_positive rnd products req t0 t1 o :
  NoDup (map sku_id products) ->
  In o (outfits (generateOutfitRecommendations rnd products req t0 t1)) ->
  Forall (fun x => 0 < lowest_price (val x))%Z (outfit_items o) /\
  total_price o = fold_left Z.add (map lowest_price (map val (outfit_items o))) 0%Z /\
  (0 < total_price o)%Z.
Proof.
  intros Hnd Hin. destruct (in_response_valid _ _ _ _ _ _ Hin) as [base Hb].
  set (Po := fun o (_ : Q) =>
    Forall (fun x => 0 < lowest_price (val x))%Z (outfit_items o) /\
    total_price o = fold_left Z.add (map lowest_price (map val (outfit_items o))) 0%Z /\
    (0 < total_price o)%Z).
  destruct (in_response_detail rnd products req t0 t1 base Po o Hb) as [sc H]; [|exact Hin|exact H].
  intros T B F A Hp attempt o' _ Htot _ cat Ht1 Ht2 Hb1 Hb2 Hf1 Hf2 [sel [n' Hacc]].
  pose proof Hp as Hp'. unfold pools in Hp'. injection Hp' as ET EB EF EA.
  destruct (base_category_cases base T B F) as [CT [CB CF]].
  assert (Slot : forall c P x, priced (getProductsByCategory products c) = P ->
            (base_category base T B F = c -> exists p, In p P /\ sku_id (val p) = sku_id (val base)) ->
            (cat = c -> x = base) -> (cat <> c -> In x P) -> (0 < lowest_price (val x))%Z).
  { intros c P x EP Cc H1 H2. subst cat. rewrite <- EP in *.
    destruct (String.eqb_spec (base_category base T B F) c) as [Hc|Hc].
    - rewrite (H1 Hc). destruct (Cc Hc) as [p [Hp0 Hs]].
      rewrite <- (base_val products req base c p Hnd Hb Hp0 Hs).
      exact (priced_pos _ _ _ Hp0).
    - exact (priced_pos _ _ _ (H2 Hc)). }
  assert (HF : Forall (fun x => 0 < lowest_price (val x))%Z (outfit_items o')).
  { unfold outfit_items. constructor; [exact (Slot _ _ _ ET CT Ht1 Ht2)|].
    constructor; [exact (Slot _ _ _ EB CB Hb1 Hb2)|].
    constructor; [exact (Slot _ _ _ EF CF Hf1 Hf2)|].
    apply Forall_forall. intros a Ha. rewrite Hacc in Ha.
    apply (add_accessories_spec rnd _ A sel [] _ n') in Ha; [|constructor|intros x []].
    rewrite <- EA in Ha. exact (priced_pos _ _ _ Ha). }
  unfold Po. split; [exact HF|]. split; [exact Htot|].
  rewrite Htot. apply fold_add_pos; [lia| |discriminate].
  rewrite map_map. apply Forall_map. exact HF.
Qed.

Lemma outfit_prices_positive_witness :
  exists o,
    In o (outfits (generateOutfitRecommendations rnd3 catalog3
                     (mkRequest "TOP_001" None None (Some 0%Z)) 0 1)) /\
    Forall (fun x => 0 < lowest_price (val x))%Z (outfit_items o) /\
    total_price o = fold_left Z.add (map lowest_price (map val (outfit_items o))) 0%Z /\
    (0 < total_price o)%Z.
Proof.
  destruct (outfits (generateOutfitRecommendations rnd3 catalog3
                       (mkRequest "TOP_001" None None (Some 0%Z)) 0 1))
    as [|o l] eqn:E; [vm_compute in E; discriminate|].
  exists o. split; [left; reflexivity|].
  apply (outfit_prices_positive rnd3 catalog3 (mkRequest "TOP_001" None None (Some 0%Z)) 0 1 o).
  - vm_compute. repeat constructor; simpl; intro H;
      repeat destruct H as [H|H]; try discriminate H; exact H.
  - rewrite E. left; reflexivity.
Defined.

(** The accessories of a returned outfit are distinct catalog objects. *)
Theorem accessories_distinct rnd products req t0 t1 o :
  In o (outfits (generateOutfitRecommendations rnd products req t0 t1)) ->
  NoDup (map ref (accessories o)).
Proof.
  intro Hin. destruct (in_response_valid _ _ _ _ _ _ Hin) as [base Hb].
  set (Po := fun o (_ : Q) => NoDup (map ref (accessories o))).
  destruct (in_response_detail rnd products req t0 t1 base Po o Hb) as [sc H]; [|exact Hin|exact H].
  intros T B F A _ attempt o' _ _ _ _ _ _ _ _ _ _ [sel [n' Hacc]].
  unfold Po. rewrite Hacc.
  apply (add_accessories_spec rnd _ A sel [] _ n'); [constructor|intros x []].
Qed.

Lemma accessories_distinct_witness :
  exists o,
    In o (outfits (generateOutfitRecommendations rnd3 catalog_acc5
                     (mkRequest "TOP_001" None None (Some 3%Z)) 0 1)) /\
    List.length (accessories o) = 2%nat /\ NoDup (map ref (accessories o)).
Proof.
  destruct (outfits (generateOutfitRecommendations rnd3 catalog_acc5
                       (mkRequest "TOP_001" None None (Some 3%Z)) 0 1))
    as [|o l] eqn:E; [vm_compute in E; discriminate|].
  exists o. split; [left; reflexivity|].
  assert (Hnd : NoDup (map ref (accessories o))).
  { apply (accessories_distinct rnd3 catalog_acc5 (mkRequest "TOP_001" None None (Some 3%Z)) 0 1 o).
    rewrite E. left; reflexivity. }
  split; [|exact Hnd].
  vm_compute in E. injection E as Eo _. subst o. reflexivity.
Defined.

(** With unique ids, a priced base product of category tops, bottoms or
    footwear sits in the matching slot of every returned outfit. *)
Theorem base_in_matching_slot rnd products req t0 t1 base o :
  NoDup (map sku_id products) ->
  getProductById products (base_product_id req) = Some base ->
  (0 < lowest_price (val base))%Z ->
  In o (outfits (generateOutfitRecommendations rnd products req t0 t1)) ->
  (category (val base) = "tops" -> top o = base) /\
  (category (val base) = "bottoms" -> bottom o = base) /\
  (category (val base) = "footwear" -> footwear o = base).
Proof.
  intros Hnd Hb Hpos Hin.
  set (Po := fun o (_ : Q) =>
    (category (val base) = "tops" -> top o = base) /\
    (category (val base) = "bottoms" -> bottom o = base) /\
    (category (val base) = "footwear" -> footwear o = base)).
  destruct (in_response_detail rnd products req t0 t1 base Po o Hb) as [sc H]; [|exact Hin|exact H].
  intros T B F A Hp attempt o' _ _ _ cat Ht1 _ Hb1 _ Hf1 _ _.
  pose proof Hp as Hp'. unfold pools in Hp'. injection Hp' as ET EB EF EA.
  subst T B F cat. unfold Po.
  repeat split; intro Hc; [apply Ht1|apply Hb1|apply Hf1];
    rewrite (base_category_own products req base Hnd Hb Hpos); rewrite Hc; simpl; auto.
Qed.

Lemma base_in_matching_slot_witness :
  exists base o,
    getProductById catalog3 "TOP_001" = Some base /\
    In o (outfits (generateOutfitRecommendations rnd3 catalog3
                     (mkRequest "TOP_001" None None (Some 0%Z)) 0 1)) /\
    (category (val base) = "tops" -> top o = base) /\
    (category (val base) = "bottoms" -> bottom o = base) /\
    (category (val base) = "footwear" -> footwear o = base).
Proof.
  destruct (getProductById catalog3 "TOP_001") as [base|] eqn:Eb; [|vm_compute in Eb; discriminate].
  destruct (outfits (generateOutfitRecommendations rnd3 catalog3
                       (mkRequest "TOP_001" None None (Some 0%Z)) 0 1))
    as [|o l] eqn:E; [vm_compute in E; discriminate|].
  exists base, o. split; [reflexivity|]. split; [left; reflexivity|].
  apply (base_in_matching_slot rnd3 catalog3 (mkRequest "TOP_001" None None (Some 0%Z)) 0 1 base o).
  - vm_compute. repeat constructor; simpl; intro H;
      repeat destruct H as [H|H]; try discriminate H; exact H.
  - exact Eb.
  - vm_compute in Eb. injection Eb as <-. reflexivity.
  - rewrite E. left; reflexivity.
Defined.

(** A negative [num_outfits] gives no outfit: the attempt loop does not
    run and [slice(0, n)] of an empty list is empty. *)
Theorem negative_count_no_outfits rnd products req t0 t1 k :
  num_outfits req = Some k -> (k < 0)%Z ->
  outfits (generateOutfitRecommendations rnd products req t0 t1) = [].
Proof.
  intros Hk Hneg.
  destruct (getProductById products (base_product_id req)) as [base|] eqn:Hb.
  2:{ unfold generateOutfitRecommendations. rewrite Hb. reflexivity. }
  destruct (generate_valid rnd products req t0 t1 base (fun _ => True) Hb
              (fun _ _ _ _ _ _ _ _ _ => I) I) as [st [_ [Hout [Hn _]]]].
  rewrite Hout, Hn; [unfold js_slice0; destruct (Z.leb _ _); apply firstn_nil|].
  rewrite Hk. simpl. destruct k; simpl in *; lia.
Qed.

Lemma negative_count_no_outfits_witness :
  outfits (generateOutfitRecommendations (fun _ => 0) catalog3
             (mkRequest "TOP_001" None None (Some (-2)%Z)) 0 1) = [].
Proof.
  apply (negative_count_no_outfits (fun _ => 0) catalog3
           (mkRequest "TOP_001" None None (Some (-2)%Z)) 0 1 (-2)%Z); [reflexivity|lia].
Defined.

(** The UI's request for a product offered by [getBaseProductOptions]: with
    unique ids, the response's base product is that product and it holds at
    most three outfits. *)
Theorem ui_request_for_option rnd products p t0 t1 :
  NoDup (map sku_id products) ->
  In p (getBaseProductOptions products) ->
  exists r b, handleGenerateOutfits rnd products (Some p) t0 t1 = Some r /\
    base_product r = Some b /\ val b = p /\ (List.length (outfits r) <= 3)%nat.
Proof.
  intros Hnd Hp. unfold getBaseProductOptions in Hp. apply filter_In in Hp as [Hp _].
  set (req := mkRequest (sku_id p) None None (Some 3%Z)).
  exists (generateOutfitRecommendations rnd products req t0 t1).
  destruct (getProductById products (base_product_id req)) as [b|] eqn:Hb.
  - exists b. split; [reflexivity|].
    assert (Hv : val b = p).
    { eapply NoDup_map_inj; [exact Hnd|exact (base_in_products _ _ _ Hb)|exact Hp|].
      unfold getProductById in Hb. apply find_some in Hb as [_ Hs].
      now apply String.eqb_eq in Hs. }
    destruct (generate_valid rnd products req t0 t1 b (fun _ => True) Hb
                (fun _ _ _ _ _ _ _ _ _ => I) I) as [st [_ [Hout [_ [Hbase _]]]]].
    split; [exact Hbase|]. split; [exact Hv|].
    rewrite Hout. unfold js_slice0. exact (firstn_le_length (Z.to_nat 3) _).
  - exfalso. unfold getProductById, catalog in Hb.
    apply in_split in Hp as [l1 [l2 Hl]]. rewrite Hl in Hb.
    assert (Hin : forall k, In (mkObj (k + List.length l1) p) (number_from k (l1 ++ p :: l2))).
    { clear. induction l1 as [|x l1 IH]; intro k; simpl; [left; f_equal; lia|].
      right. specialize (IH (S k)). replace (k + S (List.length l1))%nat with (S k + List.length l1)%nat by lia.
      exact IH. }
    specialize (Hin 0%nat).
    eapply find_none in Hb; [|exact Hin]. simpl in Hb. rewrite String.eqb_refl in Hb. discriminate.
Qed.

Lemma ui_request_for_option_witness :
  exists r b, handleGenerateOutfits rnd3 catalog3 (Some TOP_001) 0 1 = Some r /\
    base_product r = Some b /\ val b = TOP_001 /\ (List.length (outfits r) <= 3)%nat.
Proof.
  apply (ui_request_for_option rnd3 catalog3 TOP_001 0 1).
  - vm_compute. repeat constructor; simpl; intro H;
      repeat destruct H as [H|H]; try discriminate H; exact H.
  - vm_compute. left. reflexivity.
Defined.

(** ** The selector *)

(** [selectBestItem] returns [null] exactly on an empty candidate list:
    [Math.floor(Math.random() * n)] always indexes the top items. *)
Theorem selectBestItem_none_iff rnd cands ex pref n :
  random_in_range rnd ->
  fst (selectBestItem rnd cands ex pref n) = None <-> cands = [].
Proof.
  intro Hr. split.
  - intro H. destruct cands as [|c cs]; [reflexivity|exfalso].
    destruct (selectBestItem_some rnd (c :: cs) ex pref n ltac:(discriminate) (Hr n)) as [x Hx].
    congruence.
  - intros ->. reflexivity.
Qed.

Lemma rnd3_in_range : random_in_range rnd3.
Proof.
  intro n. unfold rnd3.
  assert (Hm : (n mod 3 = 0 \/ n mod 3 = 1 \/ n mod 3 = 2)%nat)
    by (pose proof (Nat.mod_upper_bound n 3); lia).
  destruct Hm as [E | [E | E]]; rewrite E; (split; [apply Qle_bool_iff | ]; reflexivity).
Qed.

Lemma selectBestItem_none_iff_witness :
  fst (selectBestItem rnd3 (catalog catalog3) [] None 0%nat) <> None.
Proof.
  intro H.
  apply (proj1 (selectBestItem_none_iff rnd3 (catalog catalog3) [] None 0%nat
                  rnd3_in_range)) in H.
  discriminate H.
Defined.

Lemma desc_trans {A} (key : A -> Q) : Transitive (desc key).
Proof. intros x y z Hxy Hyz. unfold desc in *. lra. Qed.

Lemma filter_all_false {A} (f : A -> bool) l :
  Forall (fun z => f z = false) l -> filter f l = [].
Proof. induction 1 as [|x l Hx Hl IH]; simpl; [reflexivity|]. now rewrite Hx. Qed.

Lemma sorted_count_above {A} (key : A -> Q) l k y :
  StronglySorted (desc key) l -> nth_error l k = Some y ->
  (List.length (filter (fun z => negb (Qle_bool (key z) (key y))) l) <= k)%nat.
Proof.
  revert k; induction l as [|a l IH]; intros k Hs Hk; [destruct k; discriminate|].
  inversion Hs as [|? ? Hs' Hall]; subst.
  destruct k as [|k]; simpl in Hk.
  - injection Hk as <-. simpl.
    replace (Qle_bool (key a) (key a)) with true by (symmetry; apply Qle_bool_iff, Qle_refl).
    simpl. rewrite filter_all_false; [reflexivity|].
    eapply Forall_impl; [|exact Hall]. intros z Hz. unfold desc in Hz.
    apply negb_false_iff, Qle_bool_iff. exact Hz.
  - specialize (IH k Hs' Hk). simpl.
    destruct (negb _); simpl; lia.
Qed.

Lemma filter_length_perm {A} (f : A -> bool) l l' :
  Permutation l l' -> List.length (filter f l) = List.length (filter f l').
Proof.
  induction 1; simpl; try reflexivity.
  - destruct (f x); simpl; lia.
  - destruct (f x), (f y); reflexivity.
  - congruence.
Qed.

Lemma filter_length_map {A B} (f : B -> bool) (g : A -> B) l :
  List.length (filter f (map g l)) = List.length (filter (fun x => f (g x)) l).
Proof. induction l as [|x l IH]; simpl; [reflexivity|]. destruct (f (g x)); simpl; lia. Qed.

(** The selected item is among the three best scored: fewer than three
    candidates score strictly higher than it. *)
Theorem selectBestItem_top_three rnd cands ex pref n x :
  fst (selectBestItem rnd cands ex pref n) = Some x ->
  In x cands /\
  (List.length (filter (fun c => negb (Qle_bool (candidate_score ex pref c)
                                              (candidate_score ex pref x))) cands) < 3)%nat.
Proof.
  intro H. split; [exact (selectBestItem_in _ _ _ _ _ _ H)|].
  destruct cands as [|c cs]; [discriminate|].
  cbv beta iota zeta delta [selectBestItem bind random ret fst] in H.
  set (score := candidate_score ex pref) in *.
  set (L := map (fun item => (item, score item)) (c :: cs)) in *.
  set (S := sort_desc snd L) in *.
  destruct (js_index _ _) as [[y s]|] eqn:E; simpl in H; [|discriminate].
  injection H as <-.
  unfold js_index in E. destruct (Z.ltb _ 0); [discriminate|].
  set (k := Z.to_nat _) in E.
  rewrite nth_error_firstn in E.
  destruct (Nat.ltb_spec k (Nat.min 3 (List.length S))) as [Hk|Hk]; [|discriminate].
  assert (Hs : s = score y).
  { apply nth_error_In in E. apply (Permutation_in _ (sort_desc_perm _ _)) in E.
    subst L. apply in_map_iff in E as [z [Hz _]]. injection Hz as -> ->. reflexivity. }
  pose proof (sorted_count_above snd S k (y, s)
                (Sorted_StronglySorted (desc_trans snd) (sort_desc_sorted _ _)) E) as Hc.
  rewrite (filter_length_perm _ S L (sort_desc_perm snd L)) in Hc.
  subst L. rewrite filter_length_map in Hc. cbv beta iota delta [snd] in Hc. rewrite Hs in Hc.
  lia.
Qed.

Lemma selectBestItem_top_three_witness :
  let cands := catalog catalog3 in
  match fst (selectBestItem rnd3 cands [] None 2%nat) with
  | Some x =>
    In x cands /\
    (List.length (filter (fun c => negb (Qle_bool (candidate_score [] None c)
                                                (candidate_score [] None x))) cands) < 3)%nat
  | None => False
  end.
Proof.
  intro cands.
  destruct (fst (selectBestItem rnd3 cands [] None 2%nat)) as [x|] eqn:E;
    [|vm_compute in E; discriminate E].
  exact (selectBestItem_top_three rnd3 cands [] None 2%nat x E).
Defined.

Lemma mean_unit (f : Obj -> Q) (l : list Obj) :
  l <> [] -> (forall x, 0 <= f x <= 1) -> 0 <= Qsum (map f l) / len_Q l <= 1.
Proof.
  intros Hne Hf.
  assert (Hs : 0 <= Qsum (map f l) <= len_Q (map f l)).
  { apply Qsum_unit, Forall_forall. intros y Hy. apply in_map_iff in Hy as [z [<- _]]. apply Hf. }
  unfold len_Q in *. rewrite length_map in Hs.
  apply Qdiv_unit; try lra.
  destruct l as [|a l]; [congruence|]. simpl List.length.
  change 0 with (inject_Z 0). rewrite <- Zlt_Qlt. lia.
Qed.

(** The selection score of a candidate lies in [[0, 1]]: the weights
    0.4, 0.35 and 0.15 of its three parts and the 0.1 bestseller bonus sum
    to 1. *)
Theorem candidate_score_unit ex pref item :
  0 <= candidate_score ex pref item <= 1.
Proof.
  unfold candidate_score. cbv zeta.
  assert (Hb : 0 <= (if existsb (String.eqb "bestseller") (tags (val item)) then 1 # 10 else 0) <= 1 # 10)
    by (destruct existsb; split; apply Qle_bool_iff; reflexivity).
  destruct ex as [|e ex].
  - assert (Hst : 0 <= match pref with
                      | None => 35 # 100
                      | Some ps => style_score (style_of (val item)) ps * (35 # 100)
                      end <= 35 # 100).
    { destruct pref as [ps|]; [|split; apply Qle_bool_iff; reflexivity].
      pose proof (style_score_unit (style_of (val item)) ps). lra. }
    destruct pref; lra.
  - pose proof (mean_unit (fun e => color_score (color_of (val item)) (color_of (val e)))
                  (e :: ex) ltac:(discriminate) (fun x => color_score_unit _ _)) as Hc.
    pose proof (mean_unit (fun e => style_score (style_of (val item)) (style_of (val e)))
                  (e :: ex) ltac:(discriminate) (fun x => style_score_unit _ _)) as Hs.
    assert (Hbr : 0 <= Qmax 0 (1 - Qabs (avg_tier (e :: ex) - inject_Z (brand_tier (val item))) / 3) <= 1).
    { apply Qmax_unit. apply Qdiv_nonneg; [apply Qabs_nonneg|lra]. }
    destruct pref; lra.
Qed.

(** ** Scoring functions *)

Lemma len_Q_map {A B} (f : A -> B) l : len_Q (map f l) = len_Q l.
Proof. unfold len_Q. now rewrite length_map. Qed.

Lemma len_Q_pos {A} (l : list A) : l <> [] -> 0 < len_Q l.
Proof.
  intro H. destruct l as [|a l]; [congruence|]. unfold len_Q. simpl List.length.
  change 0 with (inject_Z 0). rewrite <- Zlt_Qlt. lia.
Qed.

Lemma Qsum_map_const {A} (c : Q) (l : list A) : Qsum (map (fun _ => c) l) == len_Q l * c.
Proof.
  induction l as [|a l IH]; [unfold Qsum, len_Q; simpl; ring|].
  simpl map. rewrite Qsum_cons, len_Q_cons, IH. ring.
Qed.

Lemma mean_const {A} (c : Q) (l : list A) :
  l <> [] -> Qsum (map (fun _ => c) l) / len_Q (map (fun _ => c) l) == c.
Proof.
  intro Hne. pose proof (len_Q_pos l Hne). rewrite len_Q_map, Qsum_map_const.
  field. lra.
Qed.

(** [calculateBrandCohesion] is 1 when all items have the same brand tier:
    the variance of the tiers is then 0. *)
Theorem brand_cohesion_uniform items t :
  items <> [] -> Forall (fun i => brand_tier i = t) items ->
  calculateBrandCohesion items == 1.
Proof.
  intros Hne Ht. unfold calculateBrandCohesion. cbv zeta.
  assert (E : map (fun i => inject_Z (brand_tier i)) items = map (fun _ => inject_Z t) items).
  { apply map_ext_in. intros a Ha. rewrite Forall_forall in Ht. now rewrite Ht. }
  rewrite E. pose proof (mean_const (inject_Z t) items Hne) as Havg.
  set (avg := Qsum (map (fun _ => inject_Z t) items) / len_Q (map (fun _ => inject_Z t) items)) in *.
  rewrite map_map, Qsum_map_const, len_Q_map, Havg.
  pose proof (len_Q_pos items Hne).
  assert (HW : len_Q items * ((inject_Z t - inject_Z t) * (inject_Z t - inject_Z t)) / len_Q items == 0)
    by (field; lra).
  rewrite HW, Q.max_r; [reflexivity|]. apply Qle_bool_iff. reflexivity.
Qed.

Lemma brand_cohesion_uniform_witness :
  calculateBrandCohesion [TOP_001; BOTTOM_001; SHOE_001] == 1.
Proof.
  apply (brand_cohesion_uniform [TOP_001; BOTTOM_001; SHOE_001] 2%Z); [discriminate|].
  repeat constructor.
Defined.

Lemma filter_all_true {A} (f : A -> bool) l :
  Forall (fun z => f z = true) l -> filter f l = l.
Proof. induction 1 as [|x l Hx Hl IH]; simpl; [reflexivity|]. now rewrite Hx, IH. Qed.

Lemma filter_length_full {A} (f : A -> bool) l :
  List.length (filter f l) = List.length l -> Forall (fun z => f z = true) l.
Proof.
  induction l as [|x l IH]; simpl; intro H; [constructor|].
  pose proof (filter_length_le f l).
  destruct (f x) eqn:Ex; simpl in H; [constructor; [exact Ex|apply IH; lia]|lia].
Qed.

Lemma match_nonnil {A B} (l : list A) (x y : B) :
  l <> [] -> match l with [] => x | _ => y end = y.
Proof. destruct l; [congruence|reflexivity]. Qed.

(** [calculatePriceBalance] ignores the items without a positive price: it
    is 0.5 when no item has one, and 1 when all positive prices are equal. *)
Theorem price_balance_cases items :
  (Forall (fun i => lowest_price i <= 0)%Z items -> calculatePriceBalance items = 1 # 2) /\
  (forall p, (0 < p)%Z -> Exists (fun i => lowest_price i = p) items ->
   Forall (fun i => lowest_price i <= 0 \/ lowest_price i = p)%Z items ->
   calculatePriceBalance items == 1).
Proof.
  split.
  - intro H. unfold calculatePriceBalance.
    rewrite filter_all_false; [reflexivity|].
    apply Forall_map. eapply Forall_impl; [|exact H]. intros i Hi. simpl.
    apply Z.ltb_ge. exact Hi.
  - intros p Hp Hex Hall. unfold calculatePriceBalance.
    set (pl := filter (fun x => Z.ltb 0 x) (map lowest_price items)).
    assert (Hpl : Forall (fun x => x = p) pl).
    { apply Forall_forall. intros x Hx. subst pl. apply filter_In in Hx as [Hx Hpos].
      apply in_map_iff in Hx as [i [<- Hi]]. rewrite Forall_forall in Hall.
      apply Z.ltb_lt in Hpos. destruct (Hall i Hi); [lia|assumption]. }
    assert (Hne : pl <> []).
    { apply Exists_exists in Hex as [i [Hi Hip]]. intro E.
      assert (In p pl) by (subst pl; apply filter_In; split;
        [apply in_map_iff; exists i; auto|apply Z.ltb_lt; exact Hp]).
      rewrite E in H. exact H. }
    assert (Em : map inject_Z pl = map (fun _ => inject_Z p) pl).
    { apply map_ext_in. intros x Hx. rewrite Forall_forall in Hpl. now rewrite (Hpl x Hx). }
    rewrite Em. cbv zeta.
    rewrite (match_nonnil (map (fun _ => inject_Z p) pl));
      [|intro E; apply Hne; exact (map_eq_nil _ _ E)].
    pose proof (mean_const (inject_Z p) pl Hne) as Havg.
    set (avg := Qsum (map (fun _ => inject_Z p) pl) / len_Q (map (fun _ => inject_Z p) pl)) in *.
    rewrite map_map, Qsum_map_const, len_Q_map, Havg.
    pose proof (len_Q_pos pl Hne).
    assert (Hp' : ~ inject_Z p == 0)
      by (change 0 with (inject_Z 0); rewrite inject_Z_injective; lia).
    assert (HW : len_Q pl * ((inject_Z p - inject_Z p) / inject_Z p *
                             ((inject_Z p - inject_Z p) / inject_Z p)) / len_Q pl == 0)
      by (field; split; [exact Hp'|lra]).
    rewrite HW, Q.max_r; [reflexivity|]. apply Qle_bool_iff. reflexivity.
Qed.

Lemma price_balance_cases_witness :
  calculatePriceBalance [TOP_001; TOP_001] == 1.
Proof.
  apply (proj2 (price_balance_cases [TOP_001; TOP_001]) 1000%Z).
  - lia.
  - apply Exists_cons_hd. reflexivity.
  - repeat constructor; right; reflexivity.
Defined.




(** For a real target season (not undefined, empty or ["all"]) and a
    non-empty list, [calculateSeasonFit] is 1 exactly when every item's
    season is ["all"] or the target. *)
Theorem season_fit_full_iff items t :
  items <> [] -> t <> "" -> t <> "all" ->
  (calculateSeasonFit items (Some t) == 1 <->
   Forall (fun i => season i = "all" \/ season i = t) items).
Proof.
  intros Hne Ht1 Ht2. unfold calculateSeasonFit.
  apply String.eqb_neq in Ht1, Ht2. rewrite Ht1, Ht2. simpl orb. cbv zeta.
  set (f := fun item => (String.eqb (season item) "all" || String.eqb (season item) t)%bool).
  pose proof (len_Q_pos items Hne) as Hpos.
  assert (Hb : ~ len_Q items == 0) by lra.
  assert (Hconv : forall l, Forall (fun z => f z = true) l <->
                       Forall (fun i => season i = "all" \/ season i = t) l).
  { intro l. split; intro H; eapply Forall_impl; try exact H; intros i Hi; subst f; simpl in *.
    - apply orb_true_iff in Hi as [Hi|Hi]; apply String.eqb_eq in Hi; auto.
    - apply orb_true_iff. destruct Hi as [Hi|Hi]; [left|right]; apply String.eqb_eq; exact Hi. }
  split.
  - intro H. apply Hconv. apply filter_length_full.
    assert (E : inject_Z (Z.of_nat (List.length (filter f items))) == len_Q items).
    { setoid_replace (inject_Z (Z.of_nat (List.length (filter f items))))
        with (inject_Z (Z.of_nat (List.length (filter f items))) / len_Q items * len_Q items)
        by (field; exact Hb).
      rewrite H. ring. }
    unfold len_Q in E. rewrite inject_Z_injective in E. lia.
  - intro H. apply Hconv in H. rewrite (filter_all_true f items H). unfold len_Q in *.
    field. exact Hb.
Qed.

Lemma season_fit_full_iff_witness :
  calculateSeasonFit [TOP_001; BOTTOM_001] (Some "summer") == 1.
Proof.
  apply (proj2 (season_fit_full_iff [TOP_001; BOTTOM_001] "summer"
                  ltac:(discriminate) ltac:(discriminate) ltac:(discriminate))).
  repeat constructor.
Defined.

(** [generateReasoning] falls back to its generic sentence exactly when no
    reason fires: colour harmony and style match below 0.7, brand cohesion
    and price balance below 0.8. *)
Theorem reasoning_fallback_iff b items totalPrice :
  generateReasoning b items totalPrice =
    "A versatile combination suitable for various occasions." <->
  (color_harmony b < 7 # 10 /\ style_match b < 7 # 10 /\
   brand_cohesion b < 8 # 10 /\ price_balance b < 8 # 10).
Proof.
  unfold generateReasoning. cbv zeta.
  destruct (Qle_bool (85 # 100) (color_harmony b)) eqn:C1;
  [|destruct (Qle_bool (7 # 10) (color_harmony b)) eqn:C2];
  (destruct (Qle_bool (85 # 100) (style_match b)) eqn:S1;
   [|destruct (Qle_bool (7 # 10) (style_match b)) eqn:S2]);
  destruct (Qle_bool (8 # 10) (brand_cohesion b)) eqn:B1;
  destruct (Qle_bool (8 # 10) (price_balance b)) eqn:P1;
  repeat match goal with
  | H : Qle_bool _ _ = true |- _ => apply Qle_bool_iff in H
  | H : Qle_bool _ _ = false |- _ =>
      apply Bool.not_true_iff_false in H; rewrite Qle_bool_iff in H; apply Qnot_le_lt in H
  end;
  simpl app;
  (split; [simpl; intro E; discriminate E|intros (? & ? & ? & ?); lra])
  || (split; [intros _; lra|reflexivity]).
Qed.

Lemma js_slice_nonneg {A} (l : list A) s e :
  (0 <= s <= e)%Z ->
  js_slice l s e = firstn (Z.to_nat (e - s)) (skipn (Z.to_nat s) l).
Proof.
  intro H. unfold js_slice. cbv zeta.
  replace (Z.ltb s 0) with false by (symmetry; apply Z.ltb_ge; lia).
  replace (Z.ltb e 0) with false by (symmetry; apply Z.ltb_ge; lia).
  destruct (Z.le_gt_cases (Z.of_nat (List.length l)) s) as [Hs|Hs].
  - rewrite (Z.min_r s), (Z.min_r e) by lia. rewrite Z.sub_diag.
    rewrite (skipn_all2 l (n := Z.to_nat s)) by lia. rewrite firstn_nil. reflexivity.
  - rewrite (Z.min_l s) by lia.
    destruct (Z.le_gt_cases e (Z.of_nat (List.length l))) as [He|He].
    + rewrite Z.min_l by lia. reflexivity.
    + rewrite Z.min_r by lia.
      rewrite !firstn_all2 by (rewrite length_skipn; lia). reflexivity.
Qed.

Lemma currentProducts_page {A} (l : list A) (k : nat) :
  currentProducts l (Z.of_nat (S k)) = firstn 10 (skipn (10 * k) l).
Proof.
  unfold currentProducts, PRODUCTS_PER_PAGE. rewrite js_slice_nonneg by lia.
  f_equal; [|f_equal]; lia.
Qed.

Lemma pages_concat {A} (n : nat) (l : list A) :
  (List.length l <= 10 * n)%nat ->
  List.concat (map (fun k => firstn 10 (skipn (10 * k) l)) (seq 0 n)) = l.
Proof.
  revert l. induction n as [|n IH]; intros l H.
  - simpl. destruct l; [reflexivity|simpl in H; lia].
  - replace (seq 0 (S n)) with (0%nat :: map S (seq 0 n)) by (simpl; now rewrite seq_shift).
    rewrite map_cons, map_map. cbn [List.concat]. rewrite Nat.mul_0_r. cbn [skipn].
    erewrite map_ext.
    2:{ intro k. replace (10 * S k)%nat with (10 * k + 10)%nat by lia.
        rewrite <- skipn_skipn. reflexivity. }
    rewrite IH by (rewrite length_skipn; lia). apply firstn_skipn.
Qed.

Lemma totalPages_bounds len :
  (Z.of_nat len <= 10 * totalPages len /\ 10 * (totalPages len - 1) < Z.of_nat len)%Z.
Proof.
  unfold totalPages, PRODUCTS_PER_PAGE.
  pose proof (Qle_ceiling (inject_Z (Z.of_nat len) / inject_Z 10)) as H1.
  pose proof (Qceiling_lt (inject_Z (Z.of_nat len) / inject_Z 10)) as H2.
  set (T := Qceiling (inject_Z (Z.of_nat len) / inject_Z 10)) in *.
  change (inject_Z 10) with 10 in H1, H2, T.
  assert (HX : inject_Z (Z.of_nat len) == 10 * (inject_Z (Z.of_nat len) / 10))
    by (field; discriminate).
  set (Y := inject_Z (Z.of_nat len) / 10) in *.
  split.
  - rewrite Zle_Qle, inject_Z_mult. change (inject_Z 10) with 10. lra.
  - unfold Z.sub. rewrite Zlt_Qlt, inject_Z_mult, inject_Z_plus, inject_Z_opp.
    change (inject_Z 10) with 10. change (inject_Z 1) with 1.
    unfold Z.sub in H2. rewrite inject_Z_plus, inject_Z_opp in H2.
    change (inject_Z 1) with 1 in H2. lra.
Qed.

(** The pages [1 .. totalPages] that the pagination controls offer show,
    in order, exactly the filtered products; each of these pages shows
    between 1 and [PRODUCTS_PER_PAGE] products. *)
Theorem pagination_partitions {A} (filteredProducts : list A) :
  List.concat (map (fun p => currentProducts filteredProducts (Z.of_nat p))
              (seq 1 (Z.to_nat (totalPages (List.length filteredProducts))))) =
    filteredProducts /\
  (forall page, (1 <= page <= totalPages (List.length filteredProducts))%Z ->
   (0 < List.length (currentProducts filteredProducts page) <= 10)%nat).
Proof.
  pose proof (totalPages_bounds (List.length filteredProducts)) as [H1 H2].
  split.
  - rewrite <- seq_shift, map_map.
    erewrite map_ext by (intro k; apply currentProducts_page).
    apply pages_concat. lia.
  - intros page Hp. replace page with (Z.of_nat (S (Z.to_nat (page - 1)))) by lia.
    rewrite currentProducts_page, length_firstn, length_skipn. lia.
Qed.

Lemma pagination_partitions_witness :
  (0 < List.length (currentProducts (seq 0 25) 3) <= 10)%nat.
Proof.
  apply (proj2 (pagination_partitions (seq 0 25)) 3%Z). vm_compute. split; discriminate.
Defined.
